(** * Shapes publisher / subscriber: a shallow embedding

    The two programs of the repository are [c++11/shapes_publisher.cxx] and
    [c++11/shapes_subscriber.cxx].  Everything that belongs to the DDS
    middleware, to libm or to ncurses is outside the repository; it is taken
    here as an interface (a class) or as an explicit oracle, and the code of
    the two files is embedded over it, statement by statement. *)

From Stdlib Require Import ZArith QArith Qround Qabs Lia Lqa.
From stdpp Require Import gmap strings list pretty.

Local Open Scope Z_scope.

(** ** Machine integers *)

Module MachineInt.

(** [unsigned int]: arithmetic modulo 2^32. *)
Definition UINT_MOD : Z := 2 ^ 32.
Definition wrap_uint (z : Z) : Z := z mod UINT_MOD.

(** [int]: two's complement on 32 bits (what the compiled code does when a
    signed operation leaves the range). *)
Definition INT_MIN : Z := - 2 ^ 31.
Definition INT_MAX : Z := 2 ^ 31 - 1.
Definition wrap_int (z : Z) : Z := (z + 2 ^ 31) mod 2 ^ 32 - 2 ^ 31.

End MachineInt.

(** ** Single-precision arithmetic

    A finite [float] denotes a rational number, so [float] values are
    embedded as [Q].  The operations the publisher uses are an interface:
    which rational an operation returns is decided by the platform
    (rounding mode, evaluation precision, the libm behind [std::sin]). *)

Module Float.

Class float_ops : Type := {
  f_lit : Q -> Q;           (* the value of a literal such as 0.0475f *)
  f_of_int : Z -> Q;        (* conversion int -> float *)
  f_mul : Q -> Q -> Q;      (* float * float *)
  f_add : Q -> Q -> Q;      (* float + float *)
  f_sin : Q -> Q            (* std::sin(float) *)
}.

(** Conversion float -> int: the fractional part is discarded
    (truncation toward zero). *)
Definition float_to_int (q : Q) : Z := Z.quot (Qnum q) (Zpos (Qden q)).

(** The nearest integer, halves away from zero: the [round] of the
    specification's formula. *)
Definition round_nearest (q : Q) : Z :=
  if Qle_bool 0 q then Qfloor (q + (1 # 2)) else Qceiling (q - (1 # 2)).

(** *** A concrete platform: IEEE 754 binary32, round to nearest even *)

(** Nearest integer, ties to even. *)
Definition rnd_even (q : Q) : Z :=
  let f := Qfloor q in
  match Qcompare (q - inject_Z f) (1 # 2) with
  | Lt => f
  | Gt => f + 1
  | Eq => if Z.even f then f else f + 1
  end.

(** [ilog2 q] is the exponent [e] with [2^e <= q < 2^(e+1)], for [0 < q]. *)
Definition ilog2 (q : Q) : Z :=
  let e := Z.log2 (Qnum q) - Z.log2 (Zpos (Qden q)) in
  if Qle_bool (Qpower 2 e) q then e else e - 1.

(** Rounding of a rational to the nearest binary32 value (24 bits of
    significand; normal range, which is all the publisher reaches). *)
Definition rnd32 (q : Q) : Q :=
  match Qcompare q 0 with
  | Eq => 0%Q
  | c =>
      let a := Qabs q in
      let u := Qpower 2 (ilog2 a - 23) in
      let m := inject_Z (rnd_even (a / u)) in
      Qred (if c is Lt then - (m * u) else m * u)
  end.

(** The sine series in fixed point: numbers are integers scaled by [one];
    [n] more terms are summed from the term of degree [k] on into [acc]. *)
Fixpoint sin_terms (one a2 : Z) (n : nat) (k term acc : Z) : Z :=
  match n with
  | O => acc + term
  | S n' =>
      sin_terms one a2 n' (k + 2)
        (- (term * a2 / one) / ((k + 1) * (k + 2)))
        (acc + term)
  end.

(** The series up to degree 61 on 64 fractional bits, which on the
    publisher's arguments (|a| < 12) is far finer than binary32. *)
Definition sin_series (a : Q) : Q :=
  let one := 2 ^ 64 in
  let ax := Qfloor (a * inject_Z one) in
  let a2 := ax * ax / one in
  Qred (inject_Z (sin_terms one a2 30 1 ax 0) / inject_Z one).

(** binary32 with a sine that rounds the series. *)
Definition binary32 : float_ops := {|
  f_lit := rnd32;
  f_of_int := fun z => rnd32 (inject_Z z);
  f_mul := fun a b => rnd32 (a * b);
  f_add := fun a b => rnd32 (a + b);
  f_sin := fun a => rnd32 (sin_series a)
|}.

End Float.

(** ** The data type of the topic *)

Module Shapes.

Inductive ShapeFillKind : Type :=
| SOLID_FILL
| TRANSPARENT_FILL
| HORIZONTAL_HATCH_FILL
| VERTICAL_HATCH_FILL.

(** Modelled from the spec: the record [ShapeTypeExtended] of [shapes.hpp],
    which is not among the sources.  The fields are the ones the two
    programs set and read: the colour (the key of the instance), the
    coordinates, the size and the fill kind. *)
Record ShapeTypeExtended : Type := {
  color : string;
  x : Z;
  y : Z;
  shapesize : Z;
  fillKind : ShapeFillKind
}.

(** Modelled from the spec: a default-constructed sample (the declaration
    [::ShapeTypeExtended data;]). *)
Definition default_shape : ShapeTypeExtended :=
  {| color := ""; x := 0; y := 0; shapesize := 0; fillKind := SOLID_FILL |}.

Definition set_color (c : string) (d : ShapeTypeExtended) :=
  {| color := c; x := x d; y := y d; shapesize := shapesize d; fillKind := fillKind d |}.
Definition set_x (v : Z) (d : ShapeTypeExtended) :=
  {| color := color d; x := v; y := y d; shapesize := shapesize d; fillKind := fillKind d |}.
Definition set_y (v : Z) (d : ShapeTypeExtended) :=
  {| color := color d; x := x d; y := v; shapesize := shapesize d; fillKind := fillKind d |}.
Definition set_shapesize (v : Z) (d : ShapeTypeExtended) :=
  {| color := color d; x := x d; y := y d; shapesize := v; fillKind := fillKind d |}.
Definition set_fillKind (k : ShapeFillKind) (d : ShapeTypeExtended) :=
  {| color := color d; x := x d; y := y d; shapesize := shapesize d; fillKind := k |}.

End Shapes.

(** ** shapes_publisher.cxx *)

Module Publisher.
Import MachineInt Float Shapes.

(** What the publisher does to the outside, in order. *)
Inductive event : Type :=
| register_instance (d : ShapeTypeExtended)
| cout_writing (colour : string) (px py : Z) (count : Z)
| write (d : ShapeTypeExtended)
| sleep (seconds : Z)
| dispose_instance (registered : ShapeTypeExtended).

(** [const int left = 15, top = 15, right = 248, bottom = 278;] *)
Definition left : Z := 15.
Definition top : Z := 15.
Definition right : Z := 248.
Definition bottom : Z := 278.
Definition shape_size : Z := 30.

(** The local variables of [run_publisher_application] that change in the
    loop, with the events so far and the number of times the shutdown flag
    has been read. *)
Record locals : Type := {
  lx : Z;
  ly : Z;
  samples_written : Z;
  data : ShapeTypeExtended;
  polls : nat;
  out : list event
}.

Section Run.
Context `{float_ops}.

(** [const float AMPLITUDE = 100.0f; const float FREQUENCY = 0.0475f;] *)
Definition AMPLITUDE : Q := f_lit 100.
Definition FREQUENCY : Q := f_lit (475 # 10000).

(** The right-hand side of
    [y = (int)(bottom - top) / 2 + AMPLITUDE * std::sin(FREQUENCY * x);]
    as a [float]: the quotient is an [int] division, its result is
    converted to [float] for the sum. *)
Definition sine_term (vx : Z) : Q :=
  f_mul AMPLITUDE (f_sin (f_mul FREQUENCY (f_of_int vx))).

Definition y_float (vx : Z) : Q :=
  f_add (f_of_int (Z.quot (bottom - top) 2)) (sine_term vx).

(** The assignment to the [int] variable [y] converts the [float]. *)
Definition next_y (vx : Z) : Z := float_to_int (y_float vx).

(** [if (++x > right) x = left-shape_size;] *)
Definition next_x (vx : Z) : Z :=
  let x1 := vx + 1 in
  if right <? x1 then left - shape_size else x1.

(** The body of the [for] loop (lines 68-80). *)
Definition loop_body (colour : string) (st : locals) : locals :=
  let x1 := next_x (lx st) in
  let y1 := next_y x1 in
  let d := set_y y1 (set_x x1 (data st)) in
  {| lx := x1;
     ly := y1;
     samples_written := samples_written st;
     data := d;
     polls := polls st;
     out := out st ++ [cout_writing colour x1 y1 (samples_written st);
                       write d;
                       sleep 1] |}.

(** [++samples_written], on an [unsigned int]. *)
Definition step_counter (st : locals) : locals :=
  {| lx := lx st; ly := ly st;
     samples_written := wrap_uint (samples_written st + 1);
     data := data st; polls := polls st; out := out st |}.

(** One read of [application::shutdown_requested]. *)
Definition polled (st : locals) : locals :=
  {| lx := lx st; ly := ly st; samples_written := samples_written st;
     data := data st; polls := S (polls st); out := out st |}.

(** One full turn of the loop after its condition held: the body, then the
    increment of the [for] header. *)
Definition iteration (colour : string) (st : locals) : locals :=
  step_counter (loop_body colour (polled st)).

(** The events of [m] consecutive turns that start with [x = vx],
    [samples_written = count] and the sample [d]. *)
Fixpoint ticks (colour : string) (m : nat) (vx count : Z) (d : ShapeTypeExtended)
    : list event :=
  match m with
  | O => []
  | S m' =>
      let x1 := next_x vx in
      let y1 := next_y x1 in
      let d1 := set_y y1 (set_x x1 d) in
      [cout_writing colour x1 y1 count; write d1; sleep 1]
      ++ ticks colour m' x1 (wrap_uint (count + 1)) d1
  end.

Section Loop.
(** [application::shutdown_requested] as the loop sees it: the value
    the flag has the k-th time it is read (k from 0). *)
Variable shutdown_requested : nat -> bool.
Variable sample_count : Z.
Variable colour : string.

(** [for (; !application::shutdown_requested &&
            samples_written < sample_count; ++samples_written) body]
    [None]: the fuel ran out before the loop was left. *)
Fixpoint publish_loop (fuel : nat) (st : locals) : option locals :=
  match fuel with
  | O => None
  | S fuel' =>
      if negb (shutdown_requested (polls st))
         && (samples_written st <? sample_count)
      then publish_loop fuel' (iteration colour st)
      else Some (polled st)
  end.

(** The state on entry to the loop, for a given initial value of [y]. *)
Definition entry_state (y0 : Z) : locals :=
  let data0 := default_shape in
  let d := set_fillKind SOLID_FILL (set_shapesize shape_size (set_color colour data0)) in
  {| lx := left - shape_size;
     ly := y0;
     samples_written := 0;
     data := d;
     polls := 0;
     out := [register_instance data0] |}.

(** [run_publisher_application] from the registration of the instance
    on, with the initial value of [y] left open. *)
Definition run_publisher_from (y0 : Z) (fuel : nat) : option (list event) :=
  match publish_loop fuel (entry_state y0) with
  | Some st => Some (out st ++ [dispose_instance default_shape])
  | None => None
  end.

(** [int x = left-shape_size, y = bottom - top / 2;] *)
Definition initial_y : Z := bottom - Z.quot top 2.

Definition run_publisher_application (fuel : nat) : option (list event) :=
  run_publisher_from initial_y fuel.

End Loop.
End Run.

(** The samples written, in order. *)
Definition writes (tr : list event) : list ShapeTypeExtended :=
  omap (fun e => match e with write d => Some d | _ => None end) tr.

Definition disposals (tr : list event) : list ShapeTypeExtended :=
  omap (fun e => match e with dispose_instance d => Some d | _ => None end) tr.

(** The specification's trajectory: the x coordinate of the n-th sample
    (n from 0) runs through [left - shape_size .. right] cyclically, one
    step after the start. *)
Definition x_at (n : nat) : Z :=
  left - shape_size + (Z.of_nat n + 1) mod (right - (left - shape_size) + 1).

(** Truncation toward zero, by floor and ceiling. *)
Definition truncate (q : Q) : Z :=
  if Qle_bool 0 q then Qfloor q else Qceiling q.

(** The specification's formula for y, with its [round]. *)
Definition y_rounded `{float_ops} (vx : Z) : Z :=
  Z.quot (bottom - top) 2 + round_nearest (sine_term vx).

(** The sample of tick [n] (from 0) and the events of that turn of the
    loop, in closed form. *)
Definition sample_at `{float_ops} (colour : string) (n : nat) : ShapeTypeExtended :=
  {| color := colour; x := x_at n; y := next_y (x_at n);
     shapesize := shape_size; fillKind := SOLID_FILL |}.

Definition turn_events `{float_ops} (colour : string) (n : nat) : list event :=
  [cout_writing colour (x_at n) (next_y (x_at n)) (Z.of_nat n);
   write (sample_at colour n);
   sleep 1].

(** The run of the program for [sample_count = 2] and colour RED on
    [binary32], with the shutdown flag never set. *)
Definition two_red_samples : list event :=
  Eval vm_compute in
    default [] (run_publisher_application (H := binary32) (fun _ => false) 2 "RED" 3).

End Publisher.

(** ** The terminal

    The standard screen of ncurses as the subscriber drives it: a window of
    [LINES] rows and [COLS] columns of cells, the cursor, the current
    attributes, and the number of [refresh] calls.  Scrolling is off, as
    [initscr] leaves it. *)

Module Curses.

Record attrs : Type := { pair : Z; bold : bool }.

Record cell : Type := { glyph : Ascii.ascii; shown : attrs }.

Record terminal : Type := {
  colors : bool;                    (* has_colors() *)
  current : attrs;
  cursor : Z * Z;                   (* row, column *)
  cells : gmap (Z * Z) cell;
  refreshes : nat
}.

(** What the terminal and the build of ncurses decide: the size of the
    window, and what [waddch] does with a character that is not printable
    ASCII (tabs, newlines, control characters, bytes above 126), given the
    current attributes, the cursor and the cells: the new cursor and cells,
    and whether it returned [OK]. *)
Class window : Type := {
  LINES : Z;
  COLS : Z;
  waddch_other :
    Ascii.ascii -> attrs -> Z * Z -> gmap (Z * Z) cell -> Z * Z * gmap (Z * Z) cell * bool
}.

Definition with_current (a : attrs) (t : terminal) : terminal :=
  {| colors := colors t; current := a; cursor := cursor t; cells := cells t;
     refreshes := refreshes t |}.

Definition with_cursor (p : Z * Z) (m : gmap (Z * Z) cell) (t : terminal) : terminal :=
  {| colors := colors t; current := current t; cursor := p; cells := m;
     refreshes := refreshes t |}.

(** [COLOR_PAIR(n)] keeps the low eight bits of [n] as the pair number. *)
Definition pair_number (n : Z) : Z := n mod 256.

(** [attron(COLOR_PAIR(c))], [attroff(COLOR_PAIR(c))]: a pair number above
    0 replaces the pair that is on, respectively switches the colour off;
    [COLOR_PAIR(0)] is 0 and both calls do nothing with it. *)
Definition attron_pair (c : Z) (t : terminal) : terminal :=
  if 0 <? pair_number c
  then with_current {| pair := pair_number c; bold := bold (current t) |} t
  else t.
Definition attroff_pair (c : Z) (t : terminal) : terminal :=
  if 0 <? pair_number c
  then with_current {| pair := 0; bold := bold (current t) |} t
  else t.

(** [attron(A_BOLD)], [attroff(A_BOLD)] *)
Definition attron_bold (t : terminal) : terminal :=
  with_current {| pair := pair (current t); bold := true |} t.
Definition attroff_bold (t : terminal) : terminal :=
  with_current {| pair := pair (current t); bold := false |} t.

(** Printable ASCII: the codes 32 to 126. *)
Definition is_print (ch : Ascii.ascii) : bool :=
  (32 <=? Ascii.N_of_ascii ch)%N && (Ascii.N_of_ascii ch <=? 126)%N.

Fixpoint printable (s : string) : bool :=
  match s with
  | EmptyString => true
  | String ch s' => is_print ch && printable s'
  end.

(** [s.c_str()] as a C function reads it: the characters before the first
    NUL. *)
Fixpoint c_str (s : string) : string :=
  match s with
  | EmptyString => EmptyString
  | String ch s' =>
      if Ascii.eqb ch Ascii.zero then EmptyString else String ch (c_str s')
  end.

Section Window.
Context `{window}.

Definition in_window (row col : Z) : bool :=
  (0 <=? row) && (row <? LINES) && (0 <=? col) && (col <? COLS).

(** [waddch] of a printable character: the cell under the cursor takes the
    character with the current attributes and the cursor moves right; past
    the last column it goes to the start of the next row, and on the last
    row it stays where it is and the call returns [ERR]. *)
Definition waddch_literal (ch : Ascii.ascii) (t : terminal) : terminal * bool :=
  let (row, col) := cursor t in
  if in_window row col then
    let m := <[(row, col) := {| glyph := ch; shown := current t |}]> (cells t) in
    if COLS <=? col + 1 then
      if LINES <=? row + 1
      then (with_cursor (row, COLS - 1) m t, false)
      else (with_cursor (row + 1, 0) m t, true)
    else (with_cursor (row, col + 1) m t, true)
  else (t, false).

Definition waddch (ch : Ascii.ascii) (t : terminal) : terminal * bool :=
  if is_print ch then waddch_literal ch t
  else
    let '(p, m, ok) := waddch_other ch (current t) (cursor t) (cells t) in
    (with_cursor p m t, ok).

(** [waddstr]: character by character, up to the first [ERR]. *)
Fixpoint waddstr (s : string) (t : terminal) : terminal :=
  match s with
  | EmptyString => t
  | String ch s' =>
      let (t', ok) := waddch ch t in
      if ok then waddstr s' t' else t'
  end.

(** [mvaddstr(row, col, s)]: nothing is drawn when (row, col) is not a
    position of the window. *)
Definition mvaddstr (row col : Z) (s : string) (t : terminal) : terminal :=
  if in_window row col
  then waddstr s (with_cursor (row, col) (cells t) t)
  else t.

End Window.

(** [refresh()] *)
Definition refresh (t : terminal) : terminal :=
  {| colors := colors t; current := current t; cursor := cursor t; cells := cells t;
     refreshes := S (refreshes t) |}.

(** The cells after a text is laid on one row from a column on, with the
    attributes [a]. *)
Fixpoint lay_text (row col : Z) (s : string) (a : attrs)
    (m : gmap (Z * Z) cell) : gmap (Z * Z) cell :=
  match s with
  | EmptyString => m
  | String ch s' =>
      lay_text row (col + 1) s' a (<[(row, col) := {| glyph := ch; shown := a |}]> m)
  end.

(** The text of a row from a column on, as far as it is filled. *)
Fixpoint row_text (n : nat) (row col : Z) (m : gmap (Z * Z) cell) : string :=
  match n with
  | O => EmptyString
  | S n' =>
      match m !! (row, col) with
      | Some c => String (glyph c) (row_text n' row (col + 1) m)
      | None => EmptyString
      end
  end.

End Curses.

(** ** shapes_subscriber.cxx *)

Module Subscriber.
Import MachineInt Shapes Curses.

(** The palette [colours] of the application's headers, which are not among
    the sources: the enumeration's bounds, the two colours the code names,
    and the table of names. *)
Class colours : Type := {
  MIN_COLOUR : Z;
  MAX_COLOUR : Z;
  YELLOW : Z;
  ORANGE : Z;
  ToStr : Z -> string
}.

(** [dds::sub::status::InstanceState] and [SampleState]. *)
Inductive InstanceState : Type := alive | not_alive_disposed | not_alive_no_writers.
Inductive SampleState : Type := read | not_read.

Definition InstanceState_eqb (a b : InstanceState) : bool :=
  match a, b with
  | alive, alive | not_alive_disposed, not_alive_disposed
  | not_alive_no_writers, not_alive_no_writers => true
  | _, _ => false
  end.

Definition SampleState_eqb (a b : SampleState) : bool :=
  match a, b with
  | read, read | not_read, not_read => true
  | _, _ => false
  end.

(** What the middleware prints: [operator<<] on a sample and on an
    instance state. *)
Class printers : Type := {
  show_shape : ShapeTypeExtended -> string;
  show_instance_state : InstanceState -> string
}.

Definition InstanceHandle : Type := Z.

Record SampleInfo : Type := {
  valid : bool;
  instance_handle : InstanceHandle;
  instance_state : InstanceState;
  sample_state : SampleState
}.

Record LoanedSample : Type := {
  sdata : ShapeTypeExtended;
  info : SampleInfo
}.

(** A reader at the moment of a [take]: the samples it hands over and its
    table of instance keys. *)
Record DataReader : Type := {
  take : list LoanedSample;
  key_value : InstanceHandle -> ShapeTypeExtended
}.

(** The global [log_data] and the screen. *)
Record world : Type := {
  log_data : list string;
  term : terminal
}.

Definition on_term (f : terminal -> terminal) (w : world) : world :=
  {| log_data := log_data w; term := f (term w) |}.

(** A computation over the world that returns a value. *)
Definition M (A : Type) : Type := world -> A * world.
Definition ret {A} (a : A) : M A := fun w => (a, w).
Definition bind {A B} (m : M A) (k : A -> M B) : M B :=
  fun w => let (a, w') := m w in k a w'.
Definition act (f : world -> world) : M unit := fun w => (tt, f w).

Notation "x <- m ;; k" := (bind m (fun x => k))
  (at level 100, m at next level, right associativity).
Notation "m ;;; k" := (bind m (fun _ => k))
  (at level 100, right associativity).

(** [static const int log_y = 20;] *)
Definition log_y : Z := 20.

(** [for (const auto &s : log_data) mvaddstr(cur_y++, 0, s.c_str());] *)
Fixpoint draw_log `{window} (cur_y : Z) (l : list string) (t : terminal) : terminal :=
  match l with
  | [] => t
  | s :: l' => draw_log (cur_y + 1) l' (mvaddstr cur_y 0 (c_str s) t)
  end.

(** Every line of a log is printable and no longer than the window is wide. *)
Definition lines_fit `{window} (l : list string) : Prop :=
  Forall (fun s => printable s = true /\ Z.of_nat (String.length s) <= COLS) l.

(** [log_data.push_back(logline); if (log_data.size() > 5) log_data.pop_front();] *)
Definition log_push (logline : string) (l : list string) : list string :=
  let l1 := l ++ [logline] in
  if (5 <? length l1)%nat then tail l1 else l1.

(** [display_log] *)
Definition display_log `{window} (logline : string) (w : world) : world :=
  let l := log_push logline (log_data w) in
  {| log_data := l; term := refresh (draw_log log_y l (term w)) |}.

Section Display.
Context `{colours} `{printers} `{window}.

(** The body of the [if] in [display_sample]: the row of colour [c]. *)
Definition draw_sample (c : Z) (shape : ShapeTypeExtended) (t : terminal) : terminal :=
  let t1 :=
    if colors t then
      let t' := attron_pair c t in
      if (c =? YELLOW) || (c =? ORANGE) then attron_bold t' else t'
    else t in
  let t2 := mvaddstr c 0 (c_str (color shape)) t1 in
  let t3 := if colors t2 then attroff_bold (attroff_pair c t2) else t2 in
  let t4 := mvaddstr c 10 (c_str (show_shape shape)) t3 in
  refresh t4.

(** [for (int c = colours::MIN_COLOUR; c != colours::MAX_COLOUR; c++)]
    with [n] values of [c] left to visit; a match ends the loop ([break]). *)
Fixpoint display_sample_from (n : nat) (c : Z) (shape : ShapeTypeExtended)
    (w : world) : world :=
  match n with
  | O => w
  | S n' =>
      if String.eqb (color shape) (ToStr c)
      then on_term (draw_sample c shape) w
      else display_sample_from n' (c + 1) shape w
  end.

(** [display_sample]; the enumeration has [MIN_COLOUR <= MAX_COLOUR]. *)
Definition display_sample (shape : ShapeTypeExtended) (w : world) : world :=
  display_sample_from (Z.to_nat (MAX_COLOUR - MIN_COLOUR)) MIN_COLOUR shape w.

(** The body of the loop of [process_data] for one sample; [count] is an
    [int]. *)
Definition process_sample (reader : DataReader) (count : Z) (sample : LoanedSample)
    : M Z :=
  if valid (info sample) then
    act (display_sample (sdata sample)) ;;;
    ret (wrap_int (count + 1))
  else
    let key_shape := key_value reader (instance_handle (info sample)) in
    if InstanceState_eqb not_alive_no_writers (instance_state (info sample))
       && SampleState_eqb not_read (sample_state (info sample))
    then
      act (display_log ("Instance with key " +:+ color key_shape
                        +:+ " has dropped from the databus")) ;;;
      ret count
    else
      act (display_log ("Instance with key " +:+ color key_shape
                        +:+ " changed to "
                        +:+ show_instance_state (instance_state (info sample)))) ;;;
      ret count.

Fixpoint for_samples (reader : DataReader) (samples : list LoanedSample) (count : Z)
    : M Z :=
  match samples with
  | [] => ret count
  | sample :: rest =>
      count' <- process_sample reader count sample ;;
      for_samples reader rest count'
  end.

(** [process_data] *)
Definition process_data (reader : DataReader) : M Z :=
  for_samples reader (take reader) 0.

(** The local state of [run_subscriber_application]: [samples_read], the
    number of reads of the shutdown flag and of [dispatch] calls so far. *)
Record sub_locals : Type := {
  samples_read : Z;
  spolls : nat;
  dispatches : nat;
  screen : world
}.

Section Loop.
Variable shutdown_requested : nat -> bool.
(** The k-th [waitset.dispatch]: [None] when the wait times out, the reader
    with its data when the condition triggers and the handler runs. *)
Variable arrivals : nat -> option DataReader.
Variable sample_count : Z.

(** [waitset.dispatch(dds::core::Duration(1))] with the handler
    [samples_read += process_data(reader)]. *)
Definition dispatch (st : sub_locals) : sub_locals :=
  match arrivals (dispatches st) with
  | None =>
      {| samples_read := samples_read st; spolls := spolls st;
         dispatches := S (dispatches st); screen := screen st |}
  | Some reader =>
      let (n, w') := process_data reader (screen st) in
      {| samples_read := wrap_uint (samples_read st + n); spolls := spolls st;
         dispatches := S (dispatches st); screen := w' |}
  end.

(** One read of [application::shutdown_requested]. *)
Definition spolled (st : sub_locals) : sub_locals :=
  {| samples_read := samples_read st; spolls := S (spolls st);
     dispatches := dispatches st; screen := screen st |}.

(** One turn of the [while] loop after its condition held. *)
Definition turn (st : sub_locals) : sub_locals := dispatch (spolled st).

(** [while (!application::shutdown_requested && samples_read < sample_count)] *)
Fixpoint receive_loop (fuel : nat) (st : sub_locals) : option sub_locals :=
  match fuel with
  | O => None
  | S fuel' =>
      if negb (shutdown_requested (spolls st)) && (samples_read st <? sample_count)
      then receive_loop fuel' (dispatch (spolled st))
      else Some (spolled st)
  end.

(** [run_subscriber_application], from the loop on, over the screen [w]. *)
Definition run_subscriber_application (w : world) (fuel : nat) : option sub_locals :=
  receive_loop fuel {| samples_read := 0; spolls := 0; dispatches := 0; screen := w |}.

End Loop.
End Display.

(** The screen as [main] leaves it before the subscriber runs ([clear()]),
    and the empty log. *)
Definition blank (has_colors : bool) : world :=
  {| log_data := [];
     term := {| colors := has_colors; current := {| pair := 0; bold := false |};
                cursor := (0, 0); cells := ∅; refreshes := 0 |} |}.

(** *** The specification's reading of a metadata notification *)

Inductive LifecycleKind : Type := disposed_no_writers | state_changed.

Definition lifecycle_kind (i : InstanceState) (s : SampleState) : LifecycleKind :=
  match i, s with
  | not_alive_no_writers, not_read => disposed_no_writers
  | _, _ => state_changed
  end.

Definition lifecycle_message `{printers} (key : string) (i : InstanceState)
    (s : SampleState) : string :=
  match lifecycle_kind i s with
  | disposed_no_writers => "Instance with key " +:+ key +:+ " has dropped from the databus"
  | state_changed => "Instance with key " +:+ key +:+ " changed to " +:+ show_instance_state i
  end.

(** The message of a metadata notification of a batch. *)
Definition message_of `{printers} (reader : DataReader) (s : LoanedSample) : string :=
  lifecycle_message (color (key_value reader (instance_handle (info s))))
    (instance_state (info s)) (sample_state (info s)).

(** The routing of one notification: data to the shape rows, metadata to
    the log. *)
Definition reconcile `{colours} `{printers} `{window} (reader : DataReader) (w : world)
    (s : LoanedSample) : world :=
  if valid (info s) then display_sample (sdata s) w
  else display_log (message_of reader s) w.

Definition is_data (s : LoanedSample) : bool := valid (info s).
Definition is_metadata (s : LoanedSample) : bool := negb (valid (info s)).

(** The number of data notifications a reader hands over, and what the
    k-th dispatch adds to [samples_read]: nothing when the wait times out. *)
Definition data_count (reader : DataReader) : Z :=
  Z.of_nat (length (List.filter is_data (take reader))).

Definition arrived (arrivals : nat -> option DataReader) (k : nat) : Z :=
  match arrivals k with
  | Some reader => data_count reader
  | None => 0
  end.

(** The data notifications of the first [m] dispatches, all together. *)
Fixpoint total_arrived (arrivals : nat -> option DataReader) (m : nat) : Z :=
  match m with
  | O => 0
  | S m' => total_arrived arrivals m' + arrived arrivals m'
  end.

(** The world after the notifications of the k-th dispatch are routed. *)
Definition absorb `{colours} `{printers} `{window} (arrivals : nat -> option DataReader)
    (w : world) (k : nat) : world :=
  match arrivals k with
  | Some reader => foldl (reconcile reader) w (take reader)
  | None => w
  end.

(** The attributes of a terminal that has none switched on. *)
Definition plain : attrs := {| pair := 0; bold := false |}.

(** *** A palette, printers and a window to run the code on *)

(** A window of 24 rows and 80 columns.  The examples print no character
    outside printable ASCII; this window would skip one. *)
Definition window_24x80 : window := {|
  LINES := 24;
  COLS := 80;
  waddch_other := fun _ _ p m => (p, m, true)
|}.

Definition palette8 : colours := {|
  MIN_COLOUR := 0;
  MAX_COLOUR := 8;
  YELLOW := 4;
  ORANGE := 7;
  ToStr := fun c =>
    nth (Z.to_nat c)
      ["PURPLE"; "BLUE"; "RED"; "GREEN"; "YELLOW"; "CYAN"; "MAGENTA"; "ORANGE"] ""
|}.

Definition plain_printers : printers := {|
  show_shape := fun d => "[color: " +:+ color d +:+ "]";
  show_instance_state := fun i =>
    match i with
    | alive => "ALIVE"
    | not_alive_disposed => "NOT_ALIVE_DISPOSED"
    | not_alive_no_writers => "NOT_ALIVE_NO_WRITERS"
    end
|}.




End Subscriber.

(** * Properties of the publisher *)


Module PublisherFacts.
Import MachineInt Float Shapes Publisher.

Lemma wrap_uint_small z : 0 <= z < UINT_MOD -> wrap_uint z = z.
Proof. intros Hz. unfold wrap_uint. apply Z.mod_small. exact Hz. Qed.

Section Facts.
Context `{float_ops}.
Variable shutdown_requested : nat -> bool.
Variable sample_count : Z.
Variable colour : string.

Lemma iteration_fields st :
  lx (iteration colour st) = next_x (lx st)
  /\ ly (iteration colour st) = next_y (next_x (lx st))
  /\ samples_written (iteration colour st) = wrap_uint (samples_written st + 1)
  /\ data (iteration colour st)
     = set_y (next_y (next_x (lx st))) (set_x (next_x (lx st)) (data st))
  /\ polls (iteration colour st) = S (polls st)
  /\ out (iteration colour st)
     = out st ++ ticks colour 1 (lx st) (samples_written st) (data st).
Proof. repeat split. Qed.

(** The trace of [m] turns is the trace before them followed by [ticks]. *)
Lemma iter_out m : forall st,
  out (Nat.iter m (iteration colour) st)
  = out st ++ ticks colour m (lx st) (samples_written st) (data st).
Proof.
  induction m as [|m IH]; intros st.
  - simpl. by rewrite app_nil_r.
  - rewrite Nat.iter_succ_r, IH. cbn [ticks].
    destruct (iteration_fields st) as (-> & _ & -> & -> & _ & ->).
    cbn [ticks]. rewrite app_nil_r, <- app_assoc. reflexivity.
Qed.

Lemma iter_polls m : forall st,
  polls (Nat.iter m (iteration colour) st) = (polls st + m)%nat.
Proof.
  induction m as [|m IH]; intros st.
  - simpl. lia.
  - rewrite Nat.iter_succ_r, IH. simpl. lia.
Qed.

Lemma iter_counter m : forall st,
  0 <= samples_written st ->
  samples_written st + Z.of_nat m < UINT_MOD ->
  samples_written (Nat.iter m (iteration colour) st)
  = samples_written st + Z.of_nat m.
Proof.
  induction m as [|m IH]; intros st H0 Hm.
  - simpl. lia.
  - rewrite Nat.iter_succ_r, IH.
    + cbn. rewrite wrap_uint_small by lia. lia.
    + cbn. rewrite wrap_uint_small by lia. lia.
    + cbn. rewrite wrap_uint_small by lia. lia.
Qed.

(** Whatever the loop returns is reached by some number of turns. *)
Lemma publish_loop_turns fuel : forall st st',
  publish_loop shutdown_requested sample_count colour fuel st = Some st' ->
  exists m, st' = polled (Nat.iter m (iteration colour) st).
Proof.
  induction fuel as [|fuel IH]; intros st st' Hl; [discriminate|].
  cbn [publish_loop] in Hl.
  destruct (negb (shutdown_requested (polls st)) && (samples_written st <? sample_count)).
  - destruct (IH _ _ Hl) as [m ->]. exists (S m). by rewrite Nat.iter_succ_r.
  - exists O. by inversion Hl.
Qed.

(** The loop runs as long as the flag is clear and the count not reached. *)
Lemma publish_loop_runs m : forall fuel st,
  0 <= samples_written st ->
  samples_written st + Z.of_nat m <= sample_count ->
  sample_count < UINT_MOD ->
  (forall j, (j < m)%nat -> shutdown_requested (polls st + j) = false) ->
  publish_loop shutdown_requested sample_count colour (m + fuel) st
  = publish_loop shutdown_requested sample_count colour fuel
      (Nat.iter m (iteration colour) st).
Proof.
  induction m as [|m IH]; intros fuel st H0 Hm Hsc Hflag; [reflexivity|].
  cbn [Nat.add publish_loop].
  generalize (Hflag O ltac:(lia)). rewrite Nat.add_0_r. intros ->.
  assert (Hlt : (samples_written st <? sample_count) = true) by (apply Z.ltb_lt; lia).
  rewrite Hlt. cbn [negb andb].
  rewrite Nat.iter_succ_r. apply IH.
  - cbn. rewrite wrap_uint_small by lia. lia.
  - cbn. rewrite wrap_uint_small by lia. lia.
  - exact Hsc.
  - intros j Hj. cbn. rewrite <- (Hflag (S j)) by lia. f_equal. lia.
Qed.

Lemma publish_loop_stops fuel st :
  shutdown_requested (polls st) = true \/ sample_count <= samples_written st ->
  publish_loop shutdown_requested sample_count colour (S fuel) st = Some (polled st).
Proof.
  intros [Hs | Hc]; cbn [publish_loop].
  - by rewrite Hs.
  - assert ((samples_written st <? sample_count) = false) as -> by (apply Z.ltb_ge; lia).
    by rewrite andb_false_r.
Qed.

Lemma writes_app (a b : list event) : writes (a ++ b) = writes a ++ writes b.
Proof. unfold writes. apply omap_app. Qed.

Lemma disposals_app (a b : list event) : disposals (a ++ b) = disposals a ++ disposals b.
Proof. unfold disposals. apply omap_app. Qed.

Lemma ticks_writes_length m : forall vx c d,
  length (writes (ticks colour m vx c d)) = m.
Proof.
  induction m as [|m IH]; intros vx c d; [reflexivity|].
  cbn [ticks]. rewrite writes_app. rewrite length_app, IH. reflexivity.
Qed.

Lemma ticks_disposals m : forall vx c d, disposals (ticks colour m vx c d) = [].
Proof.
  induction m as [|m IH]; intros vx c d; [reflexivity|].
  cbn [ticks]. rewrite disposals_app, IH. reflexivity.
Qed.

Lemma ticks_writes_lookup m : forall vx c d n d',
  writes (ticks colour m vx c d) !! n = Some d' ->
  x d' = Nat.iter (S n) next_x vx
  /\ y d' = next_y (x d')
  /\ color d' = color d /\ shapesize d' = shapesize d /\ fillKind d' = fillKind d.
Proof.
  induction m as [|m IH]; intros vx c d n d' Hl; [discriminate|].
  cbn [ticks] in Hl. rewrite writes_app in Hl. cbn in Hl.
  destruct n as [|n].
  - cbn in Hl. inversion Hl; subst d'. cbn. repeat split.
  - cbn in Hl. apply IH in Hl. destruct Hl as (Hx & Hy & Hc & Hs & Hf).
    repeat split; [|assumption..].
    rewrite Hx. rewrite <- Nat.iter_succ_r. reflexivity.
Qed.

(** The trace of a run that returns: registration, some turns, disposal. *)
Lemma run_shape y0 fuel tr :
  run_publisher_from shutdown_requested sample_count colour y0 fuel = Some tr ->
  exists m,
    tr = register_instance default_shape
         :: ticks colour m (left - shape_size) 0
              (set_fillKind SOLID_FILL
                 (set_shapesize shape_size (set_color colour default_shape)))
         ++ [dispose_instance default_shape].
Proof.
  unfold run_publisher_from. intros Hr.
  destruct (publish_loop _ _ _ _ _) as [st|] eqn:Hl; [|discriminate].
  apply publish_loop_turns in Hl. destruct Hl as [m ->].
  exists m. inversion Hr. cbn [out polled]. rewrite iter_out. reflexivity.
Qed.

Lemma run_writes y0 fuel tr :
  run_publisher_from shutdown_requested sample_count colour y0 fuel = Some tr ->
  exists m,
    writes tr = writes (ticks colour m (left - shape_size) 0
              (set_fillKind SOLID_FILL
                 (set_shapesize shape_size (set_color colour default_shape)))).
Proof.
  intros Hr. destruct (run_shape _ _ _ Hr) as [m ->]. exists m.
  change (register_instance default_shape :: ?l) with ([register_instance default_shape] ++ l).
  rewrite !writes_app. cbn. by rewrite app_nil_r.
Qed.

End Facts.

Lemma next_x_x_at n : next_x (x_at n) = x_at (S n).
Proof.
  unfold next_x, x_at, left, right, shape_size.
  rewrite Nat2Z.inj_succ.
  destruct (Z.ltb_spec 248 (15 - 30 + (Z.of_nat n + 1) mod (248 - (15 - 30) + 1) + 1));
    Z.div_mod_to_equations; lia.
Qed.

Lemma iter_next_x n : Nat.iter (S n) next_x (left - shape_size) = x_at n.
Proof.
  induction n as [|n IH].
  - reflexivity.
  - rewrite Nat.iter_succ, IH. apply next_x_x_at.
Qed.

Lemma x_at_range n : left - shape_size <= x_at n <= right.
Proof.
  unfold x_at, left, right, shape_size. Z.div_mod_to_equations. lia.
Qed.

Lemma Qfloor_unique (q : Q) (k : Z) :
  (inject_Z k <= q < inject_Z k + 1)%Q -> Qfloor q = k.
Proof.
  intros [Hlo Hhi]. apply Z.le_antisymm.
  - apply Z.lt_succ_r. rewrite Zlt_Qlt. eapply Qle_lt_trans; [apply Qfloor_le|].
    unfold Z.succ. rewrite inject_Z_plus. exact Hhi.
  - apply Qfloor_resp_le in Hlo. by rewrite Qfloor_Z in Hlo.
Qed.

Lemma float_to_int_truncate q : float_to_int q = truncate q.
Proof.
  unfold float_to_int, truncate, Qle_bool, Qceiling, Qfloor.
  destruct q as [n d]. cbn [Qnum Qden Qopp].
  rewrite Z.mul_1_r, Z.mul_0_l.
  destruct (Z.leb_spec 0 n) as [Hn | Hn].
  - apply Z.quot_div_nonneg; lia.
  - rewrite <- (Z.opp_involutive n) at 1. rewrite Z.quot_opp_l by lia.
    f_equal. apply Z.quot_div_nonneg; lia.
Qed.

Section Claims.
Context `{float_ops}.
Variable shutdown_requested : nat -> bool.
Variable sample_count : Z.
Variable colour : string.

(** C3.  With the shutdown flag clear at the reads before tick [t] and set
    at tick [t] (if the count is not reached first), the publisher writes
    exactly [min sample_count t] samples and then disposes the instance
    once, as its last action; enough fuel is any amount above
    [sample_count]. *)
Theorem publisher_writes_then_disposes (t fuel : nat) :
  0 <= sample_count < UINT_MOD ->
  (forall k, (k < t)%nat -> Z.of_nat k < sample_count -> shutdown_requested k = false) ->
  (Z.of_nat t < sample_count -> shutdown_requested t = true) ->
  (Z.to_nat sample_count < fuel)%nat ->
  exists tr,
    run_publisher_application shutdown_requested sample_count colour fuel
    = Some (tr ++ [dispose_instance default_shape])
    /\ length (writes tr) = Nat.min (Z.to_nat sample_count) t
    /\ disposals tr = [].
Proof.
  intros Hsc Hclear Hset Hfuel.
  set (n := Nat.min (Z.to_nat sample_count) t).
  set (d0 := set_fillKind SOLID_FILL
               (set_shapesize shape_size (set_color colour default_shape))).
  exists (register_instance default_shape :: ticks colour n (left - shape_size) 0 d0).
  split; [|split].
  - unfold run_publisher_application, run_publisher_from.
    replace fuel with (n + S (fuel - n - 1))%nat by lia.
    rewrite publish_loop_runs; cbn [entry_state samples_written polls]; try lia.
    + rewrite publish_loop_stops.
      * cbn [out polled]. rewrite iter_out. reflexivity.
      * rewrite iter_polls, iter_counter; cbn [entry_state samples_written polls]; try lia.
        destruct (Nat.le_gt_cases (Z.to_nat sample_count) t) as [Hle | Hgt].
        -- right. lia.
        -- left. replace (0 + n)%nat with t by lia. apply Hset. lia.
    + intros j Hj. apply Hclear; lia.
  - cbn. apply ticks_writes_length.
  - cbn. apply ticks_disposals.
Qed.

(** C4.  The n-th sample written carries [x = x_at n]: x starts one above
    [left - shape_size = -15], goes up by one per tick, and the tick after
    [right = 248] it is back at [-15]; so it always lies in [-15, 248]. *)
Theorem published_x_advances_and_wraps (fuel : nat) (tr : list event) :
  run_publisher_application shutdown_requested sample_count colour fuel = Some tr ->
  forall n d, writes tr !! n = Some d ->
    x d = x_at n
    /\ -15 <= x d <= 248
    /\ (forall d', writes tr !! S n = Some d' ->
          x d' = if 248 <? x d + 1 then -15 else x d + 1).
Proof.
  intros Hr n d Hn. destruct (run_writes _ _ _ _ _ _ Hr) as [m Hw].
  rewrite Hw in *.
  destruct (ticks_writes_lookup _ _ _ _ _ _ _ Hn) as (Hx & _).
  rewrite iter_next_x in Hx. split; [exact Hx|]. split.
  - rewrite Hx. apply (x_at_range n).
  - intros d' Hn'.
    destruct (ticks_writes_lookup _ _ _ _ _ _ _ Hn') as (Hx' & _).
    rewrite iter_next_x in Hx'. rewrite Hx', Hx, <- next_x_x_at. reflexivity.
Qed.

(** C10.  The initializer of [y] is [bottom - top / 2 = 271], and no sample
    carries it: from any initial value of [y] the run is the one of the
    program, and each sample's y is computed from that sample's x. *)
Theorem initial_y_is_never_published (y0 : Z) (fuel : nat) (tr : list event) :
  run_publisher_from shutdown_requested sample_count colour y0 fuel = Some tr ->
  initial_y = 271
  /\ run_publisher_application shutdown_requested sample_count colour fuel = Some tr
  /\ Forall (fun d => y d = next_y (x d)) (writes tr).
Proof.
  intros Hr. split; [reflexivity|]. split.
  - rewrite <- Hr. unfold run_publisher_application, run_publisher_from.
    destruct fuel as [|fuel]; [reflexivity|].
    cbn [publish_loop entry_state polls samples_written].
    destruct (negb (shutdown_requested 0) && (0 <? sample_count)); reflexivity.
  - destruct (run_writes _ _ _ _ _ _ Hr) as [m ->].
    apply Forall_lookup. intros n d Hn.
    by destruct (ticks_writes_lookup _ _ _ _ _ _ _ Hn) as (_ & Hy & _).
Qed.

(** C1, as the code has it.  Each sample's y is the [float] sum of 131 (the
    [int] quotient of [bottom - top] by 2) and amplitude * sin(frequency * x),
    truncated toward zero by the conversion to [int]; x is in range. *)
Theorem published_y_is_truncated_sum (fuel : nat) (tr : list event) :
  run_publisher_application shutdown_requested sample_count colour fuel = Some tr ->
  Forall (fun d =>
            -15 <= x d <= 248
            /\ y d = truncate
                       (f_add (f_of_int 131)
                          (f_mul (f_lit 100)
                             (f_sin (f_mul (f_lit (475 # 10000)) (f_of_int (x d)))))))
         (writes tr).
Proof.
  intros Hr. apply Forall_lookup. intros n d Hn.
  destruct (run_writes _ _ _ _ _ _ Hr) as [m Hw]. rewrite Hw in Hn.
  destruct (ticks_writes_lookup _ _ _ _ _ _ _ Hn) as (Hx & Hy & _).
  rewrite iter_next_x in Hx. split.
  - rewrite Hx. apply (x_at_range n).
  - rewrite Hy. unfold next_y. rewrite float_to_int_truncate. reflexivity.
Qed.

(** Where truncation and rounding part: on any platform that puts the sine
    term of [vx] in the upper half of a unit interval, and the sum in the
    matching unit interval, the code's y is one below the rounded formula. *)
Lemma truncated_is_below_rounded (vx k : Z) :
  (inject_Z k + (1 # 2) <= sine_term vx)%Q ->
  (sine_term vx < inject_Z k + 1)%Q ->
  (inject_Z (131 + k) <= y_float vx)%Q ->
  (y_float vx < inject_Z (131 + k) + 1)%Q ->
  0 <= k ->
  next_y vx = 131 + k /\ y_rounded vx = 131 + k + 1.
Proof.
  intros Hlo Hhi Hylo Hyhi Hk.
  assert (Hk' : (0 <= inject_Z k)%Q) by (change 0%Q with (inject_Z 0); rewrite <- Zle_Qle; lia).
  split.
  - unfold next_y. rewrite float_to_int_truncate. unfold truncate.
    rewrite inject_Z_plus in Hylo, Hyhi. change (inject_Z 131) with 131%Q in *.
    assert (Hpos : (0 <= y_float vx)%Q) by lra.
    apply Qle_bool_iff in Hpos. rewrite Hpos.
    apply Qfloor_unique. rewrite inject_Z_plus. change (inject_Z 131) with 131%Q. lra.
  - unfold y_rounded, round_nearest.
    assert (Hpos : (0 <= sine_term vx)%Q) by lra.
    apply Qle_bool_iff in Hpos. rewrite Hpos.
    change (Z.quot (bottom - top) 2) with 131.
    enough (Qfloor (sine_term vx + (1 # 2)) = k + 1) by lia.
    apply Qfloor_unique. rewrite inject_Z_plus. change (inject_Z 1) with 1%Q. lra.
Qed.

End Claims.

#[local] Existing Instance binary32.

Lemma publisher_writes_then_disposes_witness :
  exists tr,
    run_publisher_application (H := binary32) (fun k => Nat.leb 2 k) 5 "RED" 6
    = Some (tr ++ [dispose_instance default_shape])
    /\ length (writes tr) = Nat.min (Z.to_nat 5) 2
    /\ disposals tr = [].
Proof.
  apply (publisher_writes_then_disposes (H := binary32) (fun k => Nat.leb 2 k) 5 "RED" 2 6).
  - unfold UINT_MOD. lia.
  - intros k Hk _. destruct k as [|[|k]]; [reflexivity | reflexivity | lia].
  - intros _. reflexivity.
  - lia.
Defined.

Lemma published_x_advances_and_wraps_witness :
  let d := {| color := "RED"; x := -14; y := 69; shapesize := 30; fillKind := SOLID_FILL |} in
  x d = x_at 0
  /\ -15 <= x d <= 248
  /\ (forall d', writes two_red_samples !! 1%nat = Some d' ->
        x d' = if 248 <? x d + 1 then -15 else x d + 1).
Proof.
  apply (published_x_advances_and_wraps (H := binary32) (fun _ => false) 2 "RED" 3
           two_red_samples); vm_compute; reflexivity.
Defined.

Lemma initial_y_is_never_published_witness :
  initial_y = 271
  /\ run_publisher_application (H := binary32) (fun _ => false) 2 "RED" 3
     = Some two_red_samples
  /\ Forall (fun d => y d = next_y (H := binary32) (x d)) (writes two_red_samples).
Proof.
  apply (initial_y_is_never_published (H := binary32) (fun _ => false) 2 "RED" 0 3).
  vm_compute. reflexivity.
Defined.

Lemma published_y_is_truncated_sum_witness :
  Forall (fun d =>
            -15 <= x d <= 248
            /\ y d = truncate
                       (f_add (f_of_int 131)
                          (f_mul (f_lit 100)
                             (f_sin (f_mul (f_lit (475 # 10000)) (f_of_int (x d)))))))
         (writes two_red_samples).
Proof.
  apply (published_y_is_truncated_sum (H := binary32) (fun _ => false) 2 "RED" 3).
  vm_compute. reflexivity.
Defined.

(** C1 as stated fails.  On binary32 the sixth sample (x = -9) has the sine
    term -41.46 and the sum 89.54: the program publishes y = 89, the formula
    with [round] gives 131 + (-41) = 90. *)
Lemma published_y_is_not_rounded :
  (fun tr => map (fun d => (x d, y d)) (writes tr))
    <$> run_publisher_application (H := binary32) (fun _ => false) 6 "RED" 7
  = Some [(-14, 69); (-13, 73); (-12, 77); (-11, 81); (-10, 85); (-9, 89)]
  /\ y_rounded (H := binary32) (-9) = 90.
Proof. split; vm_compute; reflexivity. Qed.

(** The same on the small angle x = 1, through the general lemma: the sine
    term is 4.748 and the sum 135.748. *)
Lemma truncated_is_below_rounded_at_1 :
  next_y (H := binary32) 1 = 135 /\ y_rounded (H := binary32) 1 = 136.
Proof.
  apply (truncated_is_below_rounded (H := binary32) 1 4); [| | | | lia];
    vm_compute; congruence.
Qed.
End PublisherFacts.

(** * Properties of the subscriber *)


Module SubscriberFacts.
Import MachineInt Shapes Curses Subscriber.

(** *** The log *)

Lemma log_push_drop (m : string) (l : list string) :
  (length l <= 5)%nat ->
  log_push m l = drop (length (l ++ [m]) - 5) (l ++ [m]).
Proof.
  intros Hl. unfold log_push. rewrite length_app. cbn [length].
  destruct (Nat.ltb_spec 5 (length l + 1)) as [Hgt | Hle].
  - replace (length l + 1 - 5)%nat with 1%nat by lia. reflexivity.
  - replace (length l + 1 - 5)%nat with 0%nat by lia. reflexivity.
Qed.

Lemma log_push_length (m : string) (l : list string) :
  (length l <= 5)%nat -> (length (log_push m l) <= 5)%nat.
Proof.
  intros Hl. rewrite log_push_drop by exact Hl.
  rewrite length_drop. rewrite length_app. cbn [length]. lia.
Qed.

Lemma log_pushes_drop (ms : list string) : forall l : list string,
  (length l <= 5)%nat ->
  foldl (fun l m => log_push m l) l ms = drop (length (l ++ ms) - 5) (l ++ ms).
Proof.
  induction ms as [|m ms IH]; intros l Hl.
  - cbn [foldl]. rewrite app_nil_r. replace (length l - 5)%nat with 0%nat by lia.
    reflexivity.
  - cbn [foldl]. rewrite IH by (by apply log_push_length).
    rewrite log_push_drop by exact Hl.
    assert (Hk : (length (l ++ [m]) - 5 <= length (l ++ [m]))%nat) by lia.
    rewrite <- (drop_app_le (l ++ [m]) ms) by exact Hk.
    rewrite drop_drop, length_drop, <- app_assoc. cbn [app].
    f_equal. rewrite !length_app. cbn [length]. lia.
Qed.

Lemma display_log_log `{window} (m : string) (w : world) :
  log_data (display_log m w) = log_push m (log_data w).
Proof. reflexivity. Qed.

Lemma display_logs_log `{window} (ms : list string) : forall w,
  log_data (foldl (fun w m => display_log m w) w ms)
  = foldl (fun l m => log_push m l) (log_data w) ms.
Proof.
  induction ms as [|m ms IH]; intros w; [reflexivity|].
  cbn [foldl]. rewrite IH. reflexivity.
Qed.

(** *** The screen *)

Lemma lay_text_other_row (s : string) : forall row col a (m : gmap (Z * Z) cell) r c,
  r <> row -> lay_text row col s a m !! (r, c) = m !! (r, c).
Proof.
  induction s as [|ch s IH]; intros row col a m r c Hr; [reflexivity|].
  cbn [lay_text]. rewrite IH by exact Hr.
  apply lookup_insert_ne. congruence.
Qed.

Lemma lay_text_lookup (s : string) : forall row col a (m : gmap (Z * Z) cell) c,
  lay_text row col s a m !! (row, c)
  = match (if col <=? c then String.get (Z.to_nat (c - col)) s else None) with
    | Some ch => Some {| glyph := ch; shown := a |}
    | None => m !! (row, c)
    end.
Proof.
  induction s as [|ch s IH]; intros row col a m c.
  - cbn. by destruct (col <=? c).
  - cbn [lay_text]. rewrite IH.
    destruct (Z.leb_spec (col + 1) c) as [Hgt | Hle].
    + assert ((col <=? c) = true) as -> by (apply Z.leb_le; lia).
      replace (Z.to_nat (c - col)) with (S (Z.to_nat (c - (col + 1)))) by lia.
      cbn [String.get].
      destruct (String.get _ s); [reflexivity|].
      apply lookup_insert_ne. intros [=]. lia.
    + destruct (Z.leb_spec col c) as [Hcol | Hcol].
      * assert (c = col) as -> by lia. rewrite Z.sub_diag. cbn.
        apply lookup_insert_eq.
      * apply lookup_insert_ne. intros [=]. lia.
Qed.

Lemma row_text_ext (n : nat) : forall row col (m1 m2 : gmap (Z * Z) cell),
  (forall c, col <= c < col + Z.of_nat n -> m1 !! (row, c) = m2 !! (row, c)) ->
  row_text n row col m1 = row_text n row col m2.
Proof.
  induction n as [|n IH]; intros row col m1 m2 Hm; [reflexivity|].
  cbn [row_text]. rewrite (Hm col) by lia.
  destruct (m2 !! (row, col)) as [cl|]; [|reflexivity].
  f_equal. apply IH. intros c Hc. apply Hm. lia.
Qed.

Lemma row_text_lay_text (s : string) : forall row col a (m : gmap (Z * Z) cell),
  row_text (String.length s) row col (lay_text row col s a m) = s.
Proof.
  induction s as [|ch s IH]; intros row col a m; [reflexivity|].
  cbn [String.length row_text]. rewrite lay_text_lookup.
  rewrite Z.leb_refl, Z.sub_diag. cbn [Z.to_nat String.get glyph].
  f_equal. cbn [lay_text]. apply IH.
Qed.

Section Window.
Context `{window}.

(** Writing characters changes the cursor and the cells, nothing else. *)
Lemma waddch_fields ch t :
  colors (waddch ch t).1 = colors t
  /\ current (waddch ch t).1 = current t
  /\ refreshes (waddch ch t).1 = refreshes t.
Proof.
  unfold waddch, waddch_literal. destruct (is_print ch).
  - destruct (cursor t) as [row col].
    destruct (in_window row col); [|by repeat split].
    destruct (COLS <=? col + 1); [destruct (LINES <=? row + 1)|]; by repeat split.
  - destruct (waddch_other ch (current t) (cursor t) (cells t)) as [[p m] ok].
    by repeat split.
Qed.

Lemma waddstr_fields (s : string) : forall t,
  colors (waddstr s t) = colors t
  /\ current (waddstr s t) = current t
  /\ refreshes (waddstr s t) = refreshes t.
Proof.
  induction s as [|ch s IH]; intros t; [by repeat split|].
  cbn [waddstr]. pose proof (waddch_fields ch t) as Hch.
  destruct (waddch ch t) as [t' ok]. cbn [fst] in Hch.
  destruct Hch as (Hc & Hcur & Hr). destruct ok.
  - destruct (IH t') as (-> & -> & ->). by repeat split.
  - by repeat split.
Qed.

Lemma mvaddstr_fields row col s t :
  colors (mvaddstr row col s t) = colors t
  /\ current (mvaddstr row col s t) = current t
  /\ refreshes (mvaddstr row col s t) = refreshes t.
Proof.
  unfold mvaddstr. destruct (in_window row col); [|by repeat split].
  destruct (waddstr_fields s (with_cursor (row, col) (cells t) t)) as (-> & -> & ->).
  by repeat split.
Qed.

(** A printable text that ends within the width of the window is laid on
    its row, and there only. *)
Lemma waddstr_fits (s : string) : forall t row col,
  cursor t = (row, col) ->
  0 <= row < LINES -> 0 <= col ->
  col + Z.of_nat (String.length s) <= COLS ->
  printable s = true ->
  cells (waddstr s t) = lay_text row col s (current t) (cells t).
Proof.
  induction s as [|ch s IH]; intros t row col Hcur Hrow Hcol Hfit Hp; [reflexivity|].
  cbn [printable] in Hp. apply andb_prop in Hp. destruct Hp as [Hch Hs].
  cbn [String.length] in Hfit.
  cbn [waddstr lay_text]. unfold waddch. rewrite Hch. unfold waddch_literal. rewrite Hcur.
  assert (Hin : in_window row col = true).
  { unfold in_window. rewrite !andb_true_iff, !Z.leb_le, !Z.ltb_lt. lia. }
  rewrite Hin.
  destruct (Z.leb_spec COLS (col + 1)) as [Hlast | Hmore].
  - assert (s = EmptyString) as -> by (destruct s; [reflexivity | cbn in Hfit; lia]).
    by destruct (LINES <=? row + 1).
  - rewrite (IH _ row (col + 1)); try reflexivity; try lia; assumption.
Qed.

Lemma mvaddstr_fits row col s t :
  0 <= row < LINES -> 0 <= col ->
  col + Z.of_nat (String.length s) <= COLS ->
  printable s = true ->
  cells (mvaddstr row col s t) = lay_text row col s (current t) (cells t).
Proof.
  intros Hrow Hcol Hfit Hp. unfold mvaddstr.
  destruct (in_window row col) eqn:Hin.
  - by rewrite (waddstr_fits s _ row col).
  - assert (s = EmptyString) as ->; [|reflexivity].
    destruct s; [reflexivity|]. cbn [String.length] in Hfit.
    unfold in_window in Hin. rewrite !andb_false_iff, !Z.leb_gt, !Z.ltb_ge in Hin. lia.
Qed.

Lemma c_str_printable (s : string) : printable s = true -> c_str s = s.
Proof.
  induction s as [|ch s IH]; [reflexivity|].
  cbn [printable c_str]. intros Hp. apply andb_prop in Hp. destruct Hp as [Hch Hs].
  destruct (Ascii.eqb_spec ch Ascii.zero) as [-> | _]; [discriminate|].
  by rewrite IH.
Qed.

(** Nothing is drawn on a row below the window. *)
Lemma mvaddstr_below row col s t : LINES <= row -> mvaddstr row col s t = t.
Proof.
  intros Hrow. unfold mvaddstr, in_window.
  assert ((row <? LINES) = false) as -> by (apply Z.ltb_ge; lia).
  by rewrite andb_false_r.
Qed.

Lemma attr_calls_cells c t :
  cells (attron_pair c t) = cells t
  /\ cells (attroff_pair c t) = cells t
  /\ cells (attron_bold t) = cells t
  /\ cells (attroff_bold t) = cells t.
Proof.
  unfold attron_pair, attroff_pair. destruct (0 <? pair_number c); by repeat split.
Qed.

Lemma attr_calls_colors c t :
  colors (attron_pair c t) = colors t
  /\ colors (attroff_pair c t) = colors t
  /\ colors (attron_bold t) = colors t
  /\ colors (attroff_bold t) = colors t.
Proof.
  unfold attron_pair, attroff_pair. destruct (0 <? pair_number c); by repeat split.
Qed.

End Window.

Section Display.
Context `{colours} `{printers} `{window}.

(** What [draw_sample] leaves besides the cells. *)
Lemma draw_sample_fields c shape t :
  colors (draw_sample c shape t) = colors t
  /\ refreshes (draw_sample c shape t) = S (refreshes t)
  /\ current (draw_sample c shape t)
     = if colors t
       then {| pair := if 0 <? pair_number c then 0 else pair (current t); bold := false |}
       else current t.
Proof.
  unfold draw_sample. cbn [refresh colors refreshes current].
  match goal with |- context [mvaddstr c 10 ?d ?t3] =>
    destruct (mvaddstr_fields c 10 d t3) as (-> & -> & ->) end.
  match goal with |- context [mvaddstr c 0 ?n ?t1] =>
    pose proof (mvaddstr_fields c 0 n t1) as (Hc & Hcur & Hr) end.
  destruct (colors t) eqn:Hcol.
    unfold attron_pair, attroff_pair in *.
    destruct (0 <? pair_number c); destruct ((c =? YELLOW) || (c =? ORANGE));
      cbn in *; rewrite ?Hcol in *; rewrite Hc; cbn; rewrite ?Hcur, ?Hr; cbn;
      by repeat split.
  - rewrite Hc, Hcol. rewrite Hc, Hcur, Hr. by repeat split.
Qed.

(** The cells [draw_sample] leaves when row [c] is in the window and both
    texts are printable and end within its width: the name of the colour
    laid from column 0, then the description laid from column 10. *)
Lemma draw_sample_cells c shape t :
  0 <= c < LINES ->
  printable (color shape) = true ->
  printable (show_shape shape) = true ->
  Z.of_nat (String.length (color shape)) <= COLS ->
  10 + Z.of_nat (String.length (show_shape shape)) <= COLS ->
  exists a b,
    cells (draw_sample c shape t)
    = lay_text c 10 (show_shape shape) b (lay_text c 0 (color shape) a (cells t)).
Proof.
  intros Hc Hpn Hpd Hfn Hfd. unfold draw_sample. cbn [refresh cells].
  rewrite !c_str_printable by assumption.
  rewrite mvaddstr_fits by (try assumption; lia).
  eexists _, _. f_equal.
  match goal with |- cells (if ?b then attroff_bold (attroff_pair c ?t2) else ?t2) = _ =>
    transitivity (cells t2);
      [destruct b; [|reflexivity];
       destruct (attr_calls_cells c t2) as (_ & Hoff & _);
       destruct (attr_calls_cells c (attroff_pair c t2)) as (_ & _ & _ & ->); exact Hoff|]
  end.
  rewrite mvaddstr_fits by (try assumption; lia). f_equal.
  destruct (colors t); [|reflexivity].
  destruct ((c =? YELLOW) || (c =? ORANGE)).
  - destruct (attr_calls_cells c (attron_pair c t)) as (_ & _ & -> & _).
    by destruct (attr_calls_cells c t) as (-> & _).
  - by destruct (attr_calls_cells c t) as (-> & _).
Qed.

(** The scan of the palette: no entry matches and nothing happens, or the
    first matching entry is drawn. *)
Lemma display_sample_from_cases (n : nat) : forall c shape w,
  ((forall j, 0 <= j < Z.of_nat n -> ToStr (c + j) <> color shape)
   /\ display_sample_from n c shape w = w)
  \/ (exists j, 0 <= j < Z.of_nat n
        /\ ToStr (c + j) = color shape
        /\ (forall i, 0 <= i < j -> ToStr (c + i) <> color shape)
        /\ display_sample_from n c shape w = on_term (draw_sample (c + j) shape) w).
Proof.
  induction n as [|n IH]; intros c shape w.
  - left. split; [intros j Hj; lia | reflexivity].
  - cbn [display_sample_from].
    destruct (String.eqb_spec (color shape) (ToStr c)) as [Heq | Hne].
    + right. exists 0. rewrite Z.add_0_r. repeat split; try lia. by symmetry.
    + destruct (IH (c + 1) shape w) as [[Hno Hw] | (j & Hj & Hm & Hfirst & Hw)].
      * left. split; [|exact Hw]. intros j Hj.
        destruct (Z.eq_dec j 0) as [-> | Hj0]; [rewrite Z.add_0_r; congruence|].
        replace (c + j) with (c + 1 + (j - 1)) by lia. apply Hno. lia.
      * right. exists (j + 1). replace (c + (j + 1)) with (c + 1 + j) by lia.
        repeat split; try lia; try assumption.
        intros i Hi. destruct (Z.eq_dec i 0) as [-> | Hi0]; [rewrite Z.add_0_r; congruence|].
        replace (c + i) with (c + 1 + (i - 1)) by lia. apply Hfirst. lia.
Qed.

Lemma display_sample_log shape w : log_data (display_sample shape w) = log_data w.
Proof.
  unfold display_sample.
  destruct (display_sample_from_cases (Z.to_nat (MAX_COLOUR - MIN_COLOUR)) MIN_COLOUR shape w)
    as [[_ ->] | (j & _ & _ & _ & ->)]; reflexivity.
Qed.

(** The loop of [process_data] routes each sample with [reconcile] and
    counts the data samples. *)
Lemma process_sample_reconcile reader count s w :
  process_sample reader count s w
  = (if valid (info s) then wrap_int (count + 1) else count, reconcile reader w s).
Proof.
  unfold process_sample, reconcile, message_of, lifecycle_message, lifecycle_kind.
  destruct (valid (info s)); [reflexivity|].
  destruct (instance_state (info s)), (sample_state (info s)); reflexivity.
Qed.

Lemma for_samples_app reader (pre post : list LoanedSample) : forall count w,
  for_samples reader (pre ++ post) count w
  = let (c1, w1) := for_samples reader pre count w in for_samples reader post c1 w1.
Proof.
  induction pre as [|s pre IH]; intros count w; [reflexivity|].
  cbn [app for_samples]. unfold bind.
  destruct (process_sample reader count s w) as [c1 w1]. apply IH.
Qed.

Lemma for_samples_fold reader (samples : list LoanedSample) : forall count w,
  0 <= count ->
  count + Z.of_nat (length (List.filter is_data samples)) <= INT_MAX ->
  for_samples reader samples count w
  = (count + Z.of_nat (length (List.filter is_data samples)),
     foldl (reconcile reader) w samples).
Proof.
  induction samples as [|s samples IH]; intros count w Hc0 Hmax.
  - cbn. by rewrite Z.add_0_r.
  - cbn [for_samples foldl]. unfold bind. rewrite process_sample_reconcile.
    cbn [List.filter] in *. change (is_data s) with (valid (info s)) in *.
    destruct (valid (info s)) eqn:Hv; cbn [length] in *.
    + assert (Hw : wrap_int (count + 1) = count + 1).
      { unfold wrap_int, INT_MAX in *. rewrite Z.mod_small; lia. }
      rewrite Hw, IH by lia. f_equal. lia.
    + by rewrite IH.
Qed.

Lemma reconcile_log reader (samples : list LoanedSample) : forall w,
  log_data (foldl (reconcile reader) w samples)
  = foldl (fun l m => log_push m l) (log_data w)
      (map (message_of reader) (List.filter is_metadata samples)).
Proof.
  induction samples as [|s samples IH]; intros w; [reflexivity|].
  cbn [foldl List.filter]. rewrite IH.
  change (is_metadata s) with (negb (valid (info s))). unfold reconcile.
  destruct (valid (info s)); cbn [negb map foldl].
  - by rewrite display_sample_log.
  - reflexivity.
Qed.

(** C2.  A notification without valid data, anywhere in a batch, makes the
    reconciler push exactly one line to the log, and changes nothing else:
    the key's colour with "has dropped from the databus" when the instance
    has no writers left and the sample is not read, the key's colour with
    "changed to" and the instance state otherwise. *)
Theorem metadata_notification_logs_one_line reader (pre post : list LoanedSample)
    (s : LoanedSample) (w : world) :
  take reader = pre ++ s :: post ->
  valid (info s) = false ->
  let key := color (key_value reader (instance_handle (info s))) in
  let line :=
    if InstanceState_eqb (instance_state (info s)) not_alive_no_writers
       && SampleState_eqb (sample_state (info s)) not_read
    then "Instance with key " +:+ key +:+ " has dropped from the databus"
    else "Instance with key " +:+ key +:+ " changed to "
         +:+ show_instance_state (instance_state (info s)) in
  let (c1, w1) := for_samples reader pre 0 w in
  process_data reader w = for_samples reader post c1 (display_log line w1)
  /\ log_data (display_log line w1) = log_push line (log_data w1).
Proof.
  intros Htake Hv key line. unfold process_data. rewrite Htake, for_samples_app.
  destruct (for_samples reader pre 0 w) as [c1 w1]. split; [|reflexivity].
  cbn [for_samples]. unfold bind. rewrite process_sample_reconcile.
  unfold reconcile. rewrite Hv. f_equal. f_equal.
  unfold message_of, lifecycle_message, lifecycle_kind, line, key.
  destruct (instance_state (info s)), (sample_state (info s)); reflexivity.
Qed.

(** C5.  For a batch with [k] data notifications and [m] metadata
    notifications, [process_data] returns [k], hands every notification to
    its path in batch order (data to [display_sample], metadata to
    [display_log]) and so pushes exactly [m] lines to the log. *)
Theorem process_data_counts_and_routes reader (w : world) :
  let batch := take reader in
  let k := length (List.filter is_data batch) in
  let lines := map (message_of reader) (List.filter is_metadata batch) in
  Z.of_nat k <= INT_MAX ->
  (length (log_data w) <= 5)%nat ->
  process_data reader w = (Z.of_nat k, foldl (reconcile reader) w batch)
  /\ length lines = length (List.filter is_metadata batch)
  /\ (k + length lines = length batch)%nat
  /\ log_data (foldl (reconcile reader) w batch)
     = drop (length (log_data w ++ lines) - 5) (log_data w ++ lines).
Proof.
  intros batch k lines Hk Hlog. split; [|split; [|split]].
  - unfold process_data. rewrite for_samples_fold by (fold batch; fold k; lia).
    reflexivity.
  - apply length_map.
  - unfold lines, k. rewrite length_map. clear.
    induction batch as [|s batch IH]; [reflexivity|].
    cbn [List.filter]. change (is_metadata s) with (negb (valid (info s))).
    change (is_data s) with (valid (info s)).
    destruct (valid (info s)); cbn [negb length]; lia.
  - rewrite reconcile_log. by apply log_pushes_drop.
Qed.

(** C7.  A shape whose colour is no entry of the palette leaves the world as
    it is: no cell is written, nothing is refreshed, nothing is logged. *)
Theorem unknown_colour_is_ignored (shape : ShapeTypeExtended) (w : world) :
  (forall c, MIN_COLOUR <= c < MAX_COLOUR -> ToStr c <> color shape) ->
  display_sample shape w = w.
Proof.
  intros Hno. unfold display_sample.
  destruct (display_sample_from_cases (Z.to_nat (MAX_COLOUR - MIN_COLOUR)) MIN_COLOUR shape w)
    as [[_ Hw] | (j & Hj & Hm & _)]; [exact Hw|].
  exfalso. apply (Hno (MIN_COLOUR + j)); [lia | exact Hm].
Qed.


End Display.

(** C6.  Starting from the empty log, after any sequence of [display_log]
    calls the log holds the last five lines pushed (all of them when fewer),
    in the order they were pushed, so never more than five; a push onto a
    full log drops its oldest line and keeps the others in order. *)
Theorem log_keeps_last_five `{window} (has_colors : bool) (lines : list string) :
  let w := foldl (fun w m => display_log m w) (blank has_colors) lines in
  log_data w = drop (length lines - 5) lines
  /\ (length (log_data w) <= 5)%nat
  /\ (forall a b c d e f t,
        log_data (display_log f {| log_data := [a; b; c; d; e]; term := t |})
        = [b; c; d; e; f]).
Proof.
  cbn zeta. rewrite display_logs_log. cbn [blank log_data].
  rewrite log_pushes_drop by (cbn; lia). cbn [app].
  split; [reflexivity|]. split; [|reflexivity].
  rewrite length_drop. lia.
Qed.

#[local] Existing Instance window_24x80.

Lemma metadata_notification_logs_one_line_witness :
  let gone := {| sdata := default_shape;
                 info := {| valid := false; instance_handle := 7;
                            instance_state := not_alive_no_writers;
                            sample_state := not_read |} |} in
  let reader := {| take := [gone];
                   key_value := fun _ => set_color "RED" default_shape |} in
  let line := "Instance with key RED has dropped from the databus" in
  process_data (H := palette8) (H0 := plain_printers) reader (blank true)
  = (0, display_log line (blank true))
  /\ log_data (display_log line (blank true)) = log_push line [].
Proof.
  exact (metadata_notification_logs_one_line (H := palette8) (H0 := plain_printers)
           {| take := [ {| sdata := default_shape;
                           info := {| valid := false; instance_handle := 7;
                                      instance_state := not_alive_no_writers;
                                      sample_state := not_read |} |} ];
              key_value := fun _ => set_color "RED" default_shape |}
           [] [] _ (blank true) eq_refl eq_refl).
Defined.

Lemma process_data_counts_and_routes_witness :
  let red := {| sdata := set_color "RED" default_shape;
                info := {| valid := true; instance_handle := 7;
                           instance_state := alive; sample_state := not_read |} |} in
  let gone := {| sdata := default_shape;
                 info := {| valid := false; instance_handle := 7;
                            instance_state := not_alive_no_writers;
                            sample_state := not_read |} |} in
  let reader := {| take := [red; gone];
                   key_value := fun _ => set_color "RED" default_shape |} in
  let lines := map (message_of (H := plain_printers) reader) (List.filter is_metadata [red; gone]) in
  process_data (H := palette8) (H0 := plain_printers) reader (blank true)
  = (1, foldl (reconcile (H := palette8) (H0 := plain_printers) reader) (blank true) [red; gone])
  /\ length lines = 1%nat
  /\ (1 + length lines = 2)%nat
  /\ log_data (foldl (reconcile (H := palette8) (H0 := plain_printers) reader)
                 (blank true) [red; gone])
     = drop (length ([] ++ lines) - 5) ([] ++ lines).
Proof.
  cbn zeta.
  apply (process_data_counts_and_routes (H := palette8) (H0 := plain_printers)
           {| take := [ {| sdata := set_color "RED" default_shape;
                           info := {| valid := true; instance_handle := 7;
                                      instance_state := alive;
                                      sample_state := not_read |} |};
                        {| sdata := default_shape;
                           info := {| valid := false; instance_handle := 7;
                                      instance_state := not_alive_no_writers;
                                      sample_state := not_read |} |} ];
              key_value := fun _ => set_color "RED" default_shape |}
           (blank true)).
  - vm_compute. discriminate.
  - cbn. lia.
Defined.

Lemma unknown_colour_is_ignored_witness :
  display_sample (H := palette8) (H0 := plain_printers)
    (set_color "PINK" default_shape) (blank true)
  = blank true.
Proof.
  apply (unknown_colour_is_ignored (H := palette8) (H0 := plain_printers)).
  intros c Hc. cbn in Hc.
  assert (Hcases : c = 0 \/ c = 1 \/ c = 2 \/ c = 3 \/ c = 4 \/ c = 5 \/ c = 6 \/ c = 7)
    by lia.
  destruct Hcases as [-> | [-> | [-> | [-> | [-> | [-> | [-> | ->]]]]]]]; discriminate.
Defined.

(** C8, as the code has it.  With [sample_count = 0] both loops are left at
    the first test of their condition, whatever the shutdown flag says: the
    publisher writes nothing and goes on to dispose the instance, the
    subscriber dispatches nothing. *)
Theorem zero_sample_count_stops_at_once `{Float.float_ops} `{colours} `{printers} `{window}
    (flag flag' : nat -> bool) (colour : string) (arrivals : nat -> option DataReader)
    (w : world) (fuel : nat) :
  Publisher.run_publisher_application flag 0 colour (S fuel)
  = Some [Publisher.register_instance default_shape;
          Publisher.dispose_instance default_shape]
  /\ run_subscriber_application flag' arrivals 0 w (S fuel)
     = Some {| samples_read := 0; spolls := 1; dispatches := 0; screen := w |}.
Proof.
  split.
  - unfold Publisher.run_publisher_application, Publisher.run_publisher_from.
    cbn [Publisher.publish_loop Publisher.entry_state Publisher.polls
         Publisher.samples_written].
    change (0 <? 0) with false. rewrite andb_false_r. reflexivity.
  - unfold run_subscriber_application. cbn [receive_loop samples_read spolls].
    change (0 <? 0) with false. rewrite andb_false_r. reflexivity.
Qed.

(** C8 as stated fails: with [sample_count = 0] and a shutdown flag that is
    never set, both loops end, after no write and no dispatch. *)
Lemma zero_sample_count_is_not_unbounded :
  Publisher.run_publisher_application (H := Float.binary32) (fun _ => false) 0 "RED" 1
  = Some [Publisher.register_instance default_shape;
          Publisher.dispose_instance default_shape]
  /\ dispatches
       <$> run_subscriber_application (H := palette8) (H0 := plain_printers)
             (fun _ => false) (fun _ => None) 0 (blank true) 1
     = Some 0%nat.
Proof. split; reflexivity. Qed.

#[local] Existing Instance palette8.
#[local] Existing Instance plain_printers.



End SubscriberFacts.

(** * More on the publisher: the whole trace, periodicity, termination *)


Module PublisherMore.
Import MachineInt Float Shapes Publisher PublisherFacts.

Section More.
Context `{float_ops}.
Variable shutdown_requested : nat -> bool.
Variable sample_count : Z.
Variable colour : string.

(** The loop never turns more often than the count allows. *)
Lemma publish_loop_turns_bounded fuel : forall st st',
  publish_loop shutdown_requested sample_count colour fuel st = Some st' ->
  0 <= samples_written st <= sample_count ->
  sample_count < UINT_MOD ->
  exists m,
    st' = polled (Nat.iter m (iteration colour) st)
    /\ samples_written st + Z.of_nat m <= sample_count.
Proof.
  induction fuel as [|fuel IH]; intros st st' Hl Hsw Hsc; [discriminate|].
  cbn [publish_loop] in Hl.
  destruct (negb (shutdown_requested (polls st))); cbn [andb] in Hl.
  - destruct (Z.ltb_spec (samples_written st) sample_count) as [Hlt | Hge].
    + apply IH in Hl; [| cbn; rewrite wrap_uint_small by lia; lia | exact Hsc].
      destruct Hl as (m & -> & Hm). exists (S m). split.
      * by rewrite Nat.iter_succ_r.
      * cbn in Hm. rewrite wrap_uint_small in Hm by lia. lia.
    + exists O. split; [by inversion Hl | lia].
  - exists O. split; [by inversion Hl | lia].
Qed.

(** With fuel above what is left of the count, the loop returns, and the
    same for any such fuel. *)
Lemma publish_loop_returns fuel : forall st,
  0 <= samples_written st <= sample_count ->
  sample_count < UINT_MOD ->
  (Z.to_nat (sample_count - samples_written st) < fuel)%nat ->
  exists st',
    publish_loop shutdown_requested sample_count colour fuel st = Some st'
    /\ forall fuel', (Z.to_nat (sample_count - samples_written st) < fuel')%nat ->
         publish_loop shutdown_requested sample_count colour fuel' st = Some st'.
Proof.
  induction fuel as [|fuel IH]; intros st Hsw Hsc Hfuel; [lia|].
  cbn [publish_loop].
  destruct (negb (shutdown_requested (polls st)) && (samples_written st <? sample_count))
    eqn:Hcond.
  - apply andb_prop in Hcond. destruct Hcond as [Hflag Hlt]. apply Z.ltb_lt in Hlt.
    assert (Hnext : samples_written (iteration colour st) = samples_written st + 1)
      by (cbn; rewrite wrap_uint_small by lia; reflexivity).
    destruct (IH (iteration colour st)) as (st' & Hst' & Hany);
      [rewrite Hnext; lia | exact Hsc | rewrite Hnext; lia |].
    exists st'. split; [exact Hst'|]. intros [|fuel'] Hfuel'; [lia|].
    cbn [publish_loop]. rewrite Hflag. cbn [andb].
    assert ((samples_written st <? sample_count) = true) as -> by (apply Z.ltb_lt; lia).
    apply Hany. rewrite Hnext. lia.
  - exists (polled st). split; [reflexivity|]. intros [|fuel'] Hfuel'; [lia|].
    cbn [publish_loop]. by rewrite Hcond.
Qed.

Lemma sample_at_step (n : nat) (d : ShapeTypeExtended) :
  color d = colour -> shapesize d = shape_size -> fillKind d = SOLID_FILL ->
  set_y (next_y (x_at n)) (set_x (x_at n) d) = sample_at colour n.
Proof.
  intros Hc Hs Hf. unfold sample_at, set_y, set_x. cbn. by rewrite Hc, Hs, Hf.
Qed.

(** The events of [m] turns from tick [n] on, in closed form. *)
Lemma ticks_closed_form m : forall n d,
  color d = colour -> shapesize d = shape_size -> fillKind d = SOLID_FILL ->
  Z.of_nat (n + m) < UINT_MOD ->
  ticks colour m (Nat.iter n next_x (left - shape_size)) (Z.of_nat n) d
  = flat_map (turn_events colour) (seq n m).
Proof.
  induction m as [|m IH]; intros n d Hc Hs Hf Hn; [reflexivity|].
  cbn [ticks seq flat_map].
  change (next_x (Nat.iter n next_x (left - shape_size)))
    with (Nat.iter (S n) next_x (left - shape_size)).
  rewrite iter_next_x, (sample_at_step n d Hc Hs Hf).
  rewrite wrap_uint_small by lia.
  replace (Z.of_nat n + 1) with (Z.of_nat (S n)) by lia.
  rewrite <- (iter_next_x n). rewrite IH; try reflexivity; try lia.
  rewrite iter_next_x. reflexivity.
Qed.

(** X1.  The whole trace of a run in closed form: the registration, then for
    each tick a console line with the tick's x, y and index, the write of
    the tick's sample and a sleep of one second, then the disposal. *)
Theorem run_trace_closed_form (fuel : nat) (tr : list event) :
  0 <= sample_count < UINT_MOD ->
  run_publisher_application shutdown_requested sample_count colour fuel = Some tr ->
  exists m,
    Z.of_nat m <= sample_count
    /\ tr = register_instance default_shape
            :: flat_map (turn_events colour) (seq 0 m)
            ++ [dispose_instance default_shape].
Proof.
  intros Hsc Hr. unfold run_publisher_application, run_publisher_from in Hr.
  destruct (publish_loop _ _ _ _ _) as [st|] eqn:Hl; [|discriminate].
  apply publish_loop_turns_bounded in Hl; cbn [entry_state samples_written]; try lia.
  destruct Hl as (m & -> & Hm). cbn [entry_state samples_written] in Hm.
  exists m. split; [lia|]. inversion Hr. cbn [out polled]. rewrite iter_out.
  cbn [entry_state out lx samples_written data app]. f_equal. f_equal.
  apply (ticks_closed_form m 0); try reflexivity. unfold UINT_MOD in *. lia.
Qed.

(** X2.  The instance the publisher registers, and disposes at the end, is the
    sample as it was default-constructed, before the colour was set: the
    trace starts with its registration and ends with its disposal, and for
    a colour other than the default one no written sample has its key. *)
Theorem disposed_instance_is_the_default_one (fuel : nat) (tr : list event) :
  run_publisher_application shutdown_requested sample_count colour fuel = Some tr ->
  head tr = Some (register_instance default_shape)
  /\ last tr = Some (dispose_instance default_shape)
  /\ disposals tr = [default_shape]
  /\ (colour <> color default_shape ->
      Forall (fun d => color d <> color default_shape) (writes tr)).
Proof.
  intros Hr. destruct (run_shape _ _ _ _ _ _ Hr) as [m Htr].
  split; [by rewrite Htr|]. split; [|split].
  - rewrite Htr. change (register_instance default_shape :: ?l)
      with ([register_instance default_shape] ++ l).
    by rewrite app_assoc, last_snoc.
  - rewrite Htr. change (register_instance default_shape :: ?l)
      with ([register_instance default_shape] ++ l).
    rewrite !disposals_app, ticks_disposals. reflexivity.
  - intros Hne. destruct (run_writes _ _ _ _ _ _ Hr) as [m' ->].
    apply Forall_lookup. intros n d Hn.
    destruct (ticks_writes_lookup _ _ _ _ _ _ _ Hn) as (_ & _ & Hc & _).
    by rewrite Hc.
Qed.

End More.

Lemma x_at_period (n : nat) : x_at (n + 264) = x_at n.
Proof.
  unfold x_at, left, right, shape_size. rewrite Nat2Z.inj_add.
  change (248 - (15 - 30) + 1) with 264.
  replace (Z.of_nat n + Z.of_nat 264 + 1) with (Z.of_nat n + 1 + 1 * 264) by lia.
  by rewrite Z.mod_add.
Qed.

Section Periodic.
Context `{float_ops}.
Variable shutdown_requested : nat -> bool.
Variable sample_count : Z.
Variable colour : string.

(** X3.  The trajectory is periodic: the sample written 264 ticks after another
    one is equal to it, field by field (264 is the number of x positions,
    [right - (left - shape_size) + 1]). *)
Theorem trajectory_repeats_every_264_ticks (fuel : nat) (tr : list event)
    (n : nat) (d d' : ShapeTypeExtended) :
  run_publisher_application shutdown_requested sample_count colour fuel = Some tr ->
  writes tr !! n = Some d ->
  writes tr !! (n + 264)%nat = Some d' ->
  d' = d.
Proof.
  intros Hr Hn Hn'. destruct (run_writes _ _ _ _ _ _ Hr) as [m Hw]. rewrite Hw in *.
  destruct (ticks_writes_lookup _ _ _ _ _ _ _ Hn) as (Hx & Hy & Hc & Hs & Hf).
  destruct (ticks_writes_lookup _ _ _ _ _ _ _ Hn') as (Hx' & Hy' & Hc' & Hs' & Hf').
  rewrite iter_next_x in Hx, Hx'. rewrite x_at_period, <- Hx in Hx'.
  rewrite Hx' in Hy'. rewrite <- Hy in Hy'.
  destruct d, d'. cbn in *. congruence.
Qed.

(** X4.  Whatever the shutdown flag does, the publisher comes to its end within
    [sample_count] turns: any fuel above [sample_count] gives a run, with at
    most [sample_count] writes, and more fuel gives the same run. *)
Theorem publisher_always_terminates (fuel : nat) :
  0 <= sample_count < UINT_MOD ->
  (Z.to_nat sample_count < fuel)%nat ->
  exists tr,
    run_publisher_application shutdown_requested sample_count colour fuel = Some tr
    /\ Z.of_nat (length (writes tr)) <= sample_count
    /\ forall fuel', (Z.to_nat sample_count < fuel')%nat ->
         run_publisher_application shutdown_requested sample_count colour fuel' = Some tr.
Proof.
  intros Hsc Hfuel.
  destruct (publish_loop_returns shutdown_requested sample_count colour fuel
              (entry_state colour initial_y)) as (st' & Hst' & Hany);
    cbn [entry_state samples_written]; try lia.
  cbn [entry_state samples_written] in Hany. rewrite Z.sub_0_r in Hany.
  exists (out st' ++ [dispose_instance default_shape]). split; [|split].
  - unfold run_publisher_application, run_publisher_from. by rewrite Hst'.
  - apply publish_loop_turns_bounded in Hst'; cbn [entry_state samples_written]; try lia.
    destruct Hst' as (m & -> & Hm). cbn [entry_state samples_written] in Hm.
    cbn [out polled]. rewrite iter_out, !writes_app, !length_app, ticks_writes_length.
    cbn. lia.
  - intros fuel' Hfuel'. unfold run_publisher_application, run_publisher_from.
    by rewrite (Hany fuel' Hfuel').
Qed.

End Periodic.
#[local] Existing Instance binary32.

Lemma run_trace_closed_form_witness :
  exists m,
    Z.of_nat m <= 2
    /\ two_red_samples
       = register_instance default_shape
         :: flat_map (turn_events "RED") (seq 0 m)
         ++ [dispose_instance default_shape].
Proof.
  apply (run_trace_closed_form (fun _ => false) 2 "RED" 3 two_red_samples).
  - unfold UINT_MOD. lia.
  - vm_compute. reflexivity.
Defined.

Lemma disposed_instance_is_the_default_one_witness :
  head two_red_samples = Some (register_instance default_shape)
  /\ last two_red_samples = Some (dispose_instance default_shape)
  /\ disposals two_red_samples = [default_shape]
  /\ ("RED" <> color default_shape ->
      Forall (fun d => color d <> color default_shape) (writes two_red_samples)).
Proof.
  apply (disposed_instance_is_the_default_one (fun _ => false) 2 "RED" 3).
  vm_compute. reflexivity.
Defined.

Lemma trajectory_repeats_every_264_ticks_witness :
  sample_at "RED" 264 = sample_at "RED" 0.
Proof.
  eapply (trajectory_repeats_every_264_ticks (fun _ => false) 265 "RED" 266 _ 0%nat).
  - vm_compute. reflexivity.
  - vm_compute. reflexivity.
  - vm_compute. reflexivity.
Defined.

Lemma publisher_always_terminates_witness :
  exists tr,
    run_publisher_application (fun k => Nat.leb 2 k) 5 "RED" 6 = Some tr
    /\ Z.of_nat (length (writes tr)) <= 5
    /\ forall fuel', (Z.to_nat 5 < fuel')%nat ->
         run_publisher_application (fun k => Nat.leb 2 k) 5 "RED" fuel' = Some tr.
Proof.
  apply (publisher_always_terminates (fun k => Nat.leb 2 k) 5 "RED" 6).
  - unfold UINT_MOD. lia.
  - lia.
Defined.

End PublisherMore.

(** * More on the subscriber: what the screen shows, the receive loop *)


Module SubscriberMore.
Import MachineInt Shapes Curses Subscriber SubscriberFacts.

Lemma wrap_uint_range z : 0 <= wrap_uint z < UINT_MOD.
Proof. unfold wrap_uint, UINT_MOD. apply Z.mod_pos_bound. lia. Qed.

Lemma wrap_uint_in_range z : 0 <= z < UINT_MOD -> wrap_uint z = z.
Proof. intros Hz. unfold wrap_uint. by apply Z.mod_small. Qed.

Lemma get_past_end (s : string) : forall n,
  (String.length s <= n)%nat -> String.get n s = None.
Proof.
  induction s as [|ch s IH]; intros n Hn; [reflexivity|].
  destruct n as [|n]; cbn in *; [lia|]. apply IH. lia.
Qed.

(** *** The log region *)

Section Log.
Context `{window}.

Lemma draw_log_fields (l : list string) : forall y t,
  colors (draw_log y l t) = colors t
  /\ current (draw_log y l t) = current t
  /\ refreshes (draw_log y l t) = refreshes t.
Proof.
  induction l as [|s l IH]; intros y t; [by repeat split|].
  cbn [draw_log]. destruct (IH (y + 1) (mvaddstr y 0 (c_str s) t)) as (-> & -> & ->).
  apply mvaddstr_fields.
Qed.

(** One line of the log on the screen: laid on its row when the row is in
    the window, not drawn when the row is below it. *)
Lemma log_line_cells y s t :
  0 <= y -> printable s = true -> Z.of_nat (String.length s) <= COLS ->
  cells (mvaddstr y 0 (c_str s) t)
  = if y <? LINES then lay_text y 0 s (current t) (cells t) else cells t.
Proof.
  intros Hy Hp Hfit. rewrite (c_str_printable s Hp).
  destruct (Z.ltb_spec y LINES) as [Hin | Hout].
  - apply mvaddstr_fits; try assumption; lia.
  - by rewrite mvaddstr_below.
Qed.

Lemma draw_log_outside (l : list string) : forall y t r c,
  lines_fit l -> 0 <= y ->
  r < y \/ y + Z.of_nat (length l) <= r ->
  cells (draw_log y l t) !! (r, c) = cells t !! (r, c).
Proof.
  induction l as [|s l IH]; intros y t r c Hl Hy Hr; [reflexivity|].
  apply Forall_cons in Hl. destruct Hl as [[Hp Hfit] Hl].
  cbn [draw_log]. cbn [length] in Hr. rewrite IH by (try assumption; lia).
  rewrite log_line_cells by assumption.
  destruct (y <? LINES); [|reflexivity]. apply lay_text_other_row. lia.
Qed.

Lemma draw_log_row (l : list string) : forall y t (i : nat) s c,
  lines_fit l -> 0 <= y -> y + Z.of_nat i < LINES ->
  l !! i = Some s ->
  cells (draw_log y l t) !! (y + Z.of_nat i, c)
  = match (if 0 <=? c then String.get (Z.to_nat c) s else None) with
    | Some ch => Some {| glyph := ch; shown := current t |}
    | None => cells t !! (y + Z.of_nat i, c)
    end.
Proof.
  induction l as [|s0 l IH]; intros y t i s c Hl Hy Hrow Hi; [discriminate|].
  apply Forall_cons in Hl. destruct Hl as [[Hp Hfit] Hl].
  cbn [draw_log]. destruct i as [|i].
  - cbn in Hi. inversion Hi; subst s0. rewrite Z.add_0_r in *.
    rewrite draw_log_outside by (try assumption; lia).
    rewrite log_line_cells by assumption.
    assert ((y <? LINES) = true) as -> by (apply Z.ltb_lt; lia).
    rewrite lay_text_lookup. by rewrite Z.sub_0_r.
  - cbn in Hi. replace (y + Z.of_nat (S i)) with (y + 1 + Z.of_nat i) in * by lia.
    rewrite (IH (y + 1) _ i s c Hl) by (try assumption; lia).
    destruct (mvaddstr_fields y 0 (c_str s0) t) as (_ & -> & _).
    destruct (if 0 <=? c then String.get (Z.to_nat c) s else None); [reflexivity|].
    rewrite log_line_cells by assumption.
    destruct (y <? LINES); [|reflexivity]. apply lay_text_other_row. lia.
Qed.

(** X5.  After [display_log], when the lines of the log are printable and
    no longer than the window is wide, every line whose row is in the
    window stands on that row, line i on row 20 + i from column 0 on; what
    the row held to the right of the line is still there (nothing is
    erased). *)
Theorem display_log_shows_the_log (line : string) (w : world) (i : nat) (s : string) :
  lines_fit (log_data (display_log line w)) ->
  20 + Z.of_nat i < LINES ->
  log_data (display_log line w) !! i = Some s ->
  row_text (String.length s) (20 + Z.of_nat i) 0 (cells (term (display_log line w))) = s
  /\ (forall c, Z.of_nat (String.length s) <= c ->
        cells (term (display_log line w)) !! (20 + Z.of_nat i, c)
        = cells (term w) !! (20 + Z.of_nat i, c)).
Proof.
  intros Hfit Hrow Hi. cbn [display_log log_data term refresh cells] in *. split.
  - etransitivity;
      [|apply (row_text_lay_text s (20 + Z.of_nat i) 0 (current (term w)) (cells (term w)))].
    apply row_text_ext. intros c Hc.
    change 20 with log_y in *.
    rewrite (draw_log_row _ log_y (term w) i s c Hfit) by (try assumption; unfold log_y; lia).
    rewrite lay_text_lookup. by rewrite Z.sub_0_r.
  - intros c Hc. change 20 with log_y in *.
    rewrite (draw_log_row _ log_y (term w) i s c Hfit) by (try assumption; unfold log_y; lia).
    destruct (0 <=? c); [|reflexivity]. rewrite get_past_end by lia. reflexivity.
Qed.

(** X6.  For a log of at most five lines, all printable and no longer than
    the window is wide, [display_log] changes no cell outside rows 20 to 24;
    in any case it refreshes once and leaves the attributes alone. *)
Theorem display_log_stays_in_the_log_region (line : string) (w : world) :
  (length (log_data w) <= 5)%nat ->
  lines_fit (log_data (display_log line w)) ->
  (forall r c, r < 20 \/ 25 <= r ->
     cells (term (display_log line w)) !! (r, c) = cells (term w) !! (r, c))
  /\ refreshes (term (display_log line w)) = S (refreshes (term w))
  /\ current (term (display_log line w)) = current (term w)
  /\ colors (term (display_log line w)) = colors (term w).
Proof.
  intros Hl Hfit. pose proof (log_push_length line _ Hl) as Hlen.
  cbn [display_log term refresh cells refreshes current colors log_data] in *.
  destruct (draw_log_fields (log_push line (log_data w)) log_y (term w)) as (-> & -> & ->).
  repeat split. intros r c Hr. apply draw_log_outside; [exact Hfit | | ]; unfold log_y; lia.
Qed.

End Log.

(** *** The shape rows *)

Section Display.
Context `{colours} `{printers} `{window}.

Lemma display_sample_from_none (shape : ShapeTypeExtended) (w : world) :
  (forall c, MIN_COLOUR <= c < MAX_COLOUR -> ToStr c <> color shape) ->
  display_sample shape w = w.
Proof.
  intros Hno. unfold display_sample.
  destruct (display_sample_from_cases (Z.to_nat (MAX_COLOUR - MIN_COLOUR)) MIN_COLOUR shape w)
    as [[_ Hw] | (j & Hj & Hm & _)]; [exact Hw|].
  exfalso. apply (Hno (MIN_COLOUR + j)); [lia | exact Hm].
Qed.

(** X7.  When the colour of a shape is in the palette, first at entry [c],
    and row [c] is in the window and both texts are printable and end
    within its width, row [c] shows the shape's description from column 10
    on and, if it ends before column 10, the colour's name from column 0
    on; the screen is refreshed once; with colours, bold is off afterwards
    and so is the colour pair, unless the pair number of [c] is 0, for
    which the pair that was on stays on. *)
Theorem display_sample_shows_the_shape (shape : ShapeTypeExtended) (w : world) (c : Z) :
  MIN_COLOUR <= c < MAX_COLOUR ->
  ToStr c = color shape ->
  (forall c', MIN_COLOUR <= c' < c -> ToStr c' <> color shape) ->
  0 <= c < LINES ->
  printable (color shape) = true ->
  printable (show_shape shape) = true ->
  Z.of_nat (String.length (color shape)) <= COLS ->
  10 + Z.of_nat (String.length (show_shape shape)) <= COLS ->
  let w' := display_sample shape w in
  row_text (String.length (show_shape shape)) c 10 (cells (term w')) = show_shape shape
  /\ ((String.length (color shape) <= 10)%nat ->
      row_text (String.length (color shape)) c 0 (cells (term w')) = color shape)
  /\ refreshes (term w') = S (refreshes (term w))
  /\ current (term w')
     = (if colors (term w)
        then {| pair := if 0 <? pair_number c then 0 else pair (current (term w));
                bold := false |}
        else current (term w)).
Proof.
  intros Hc Hm Hfirst Hrow Hpn Hpd Hfn Hfd w'.
  assert (Hw : w' = on_term (draw_sample c shape) w).
  { unfold w', display_sample.
    destruct (display_sample_from_cases (Z.to_nat (MAX_COLOUR - MIN_COLOUR))
                MIN_COLOUR shape w) as [[Hno _] | (j & Hj & Hmj & Hfj & ->)].
    - exfalso. apply (Hno (c - MIN_COLOUR)); [lia|].
      by replace (MIN_COLOUR + (c - MIN_COLOUR)) with c by lia.
    - destruct (Z.lt_trichotomy (MIN_COLOUR + j) c) as [Hlt | [-> | Hgt]].
      + exfalso. by apply (Hfirst (MIN_COLOUR + j)); [lia|].
      + reflexivity.
      + exfalso. apply (Hfj (c - MIN_COLOUR)); [lia|].
        by replace (MIN_COLOUR + (c - MIN_COLOUR)) with c by lia. }
  rewrite Hw. cbn [on_term term].
  destruct (draw_sample_fields c shape (term w)) as (_ & Hr & Hcur).
  destruct (draw_sample_cells c shape (term w)) as (a & b & Hcells); try assumption.
  split; [|split; [|split]]; [| |exact Hr|exact Hcur].
  - rewrite Hcells. apply row_text_lay_text.
  - intros Hlen. rewrite Hcells.
    etransitivity; [|apply (row_text_lay_text (color shape) c 0 a (cells (term w)))].
    apply row_text_ext. intros col Hcol. rewrite lay_text_lookup.
    assert ((10 <=? col) = false) as -> by (apply Z.leb_gt; lia). reflexivity.
Qed.

Lemma reconcile_current reader w s :
  current (term w) = plain -> current (term (reconcile reader w s)) = plain.
Proof.
  intros Hp. unfold reconcile. destruct (valid (info s)).
  - unfold display_sample.
    destruct (display_sample_from_cases (Z.to_nat (MAX_COLOUR - MIN_COLOUR))
                MIN_COLOUR (sdata s) w) as [[_ ->] | (j & _ & _ & _ & ->)]; [exact Hp|].
    cbn [on_term term].
    destruct (draw_sample_fields (MIN_COLOUR + j) (sdata s) (term w)) as (_ & _ & ->).
    rewrite Hp. cbn [pair plain].
    by destruct (colors (term w)), (0 <? pair_number (MIN_COLOUR + j)).
  - cbn [display_log term refresh current].
    by destruct (draw_log_fields (log_push (message_of reader s) (log_data w)) log_y (term w))
      as (_ & -> & _).
Qed.

Lemma for_samples_world reader (samples : list LoanedSample) : forall count w,
  (for_samples reader samples count w).2 = foldl (reconcile reader) w samples.
Proof.
  induction samples as [|s samples IH]; intros count w; [reflexivity|].
  cbn [for_samples foldl]. unfold bind. rewrite process_sample_reconcile. apply IH.
Qed.

(** X8.  The attributes never leak: if none is switched on before a batch, none
    is switched on after [process_data], whatever the batch holds. *)
Theorem process_data_restores_attributes reader (w : world) :
  current (term w) = plain ->
  current (term (process_data reader w).2) = plain.
Proof.
  intros Hp. unfold process_data. rewrite for_samples_world.
  revert w Hp. induction (take reader) as [|s l IH]; intros w Hp; [exact Hp|].
  cbn [foldl]. apply IH. by apply reconcile_current.
Qed.

Lemma filter_all_data (l : list LoanedSample) :
  Forall (fun s => valid (info s) = true) l -> List.filter is_data l = l.
Proof.
  induction 1 as [|s l Hv _ IH]; [reflexivity|].
  cbn [List.filter]. unfold is_data at 1. rewrite Hv. by rewrite IH.
Qed.

Lemma reconcile_unknown reader (l : list LoanedSample) :
  Forall (fun s => valid (info s) = true
                   /\ forall c, MIN_COLOUR <= c < MAX_COLOUR -> ToStr c <> color (sdata s)) l ->
  forall w, foldl (reconcile reader) w l = w.
Proof.
  induction 1 as [|s l [Hv Hno] _ IH]; intros w; [reflexivity|].
  cbn [foldl]. unfold reconcile at 2. rewrite Hv.
  rewrite (display_sample_from_none (sdata s) w Hno). apply IH.
Qed.

(** X9.  Data whose colour is not in the palette is counted all the same: a batch
    of such samples is counted in full and leaves the world as it was. *)
Theorem unknown_colours_are_counted reader (w : world) :
  Forall (fun s => valid (info s) = true
                   /\ forall c, MIN_COLOUR <= c < MAX_COLOUR -> ToStr c <> color (sdata s))
         (take reader) ->
  Z.of_nat (length (take reader)) <= INT_MAX ->
  process_data reader w = (Z.of_nat (length (take reader)), w).
Proof.
  intros Hall Hmax. unfold process_data.
  assert (Hdata : List.filter is_data (take reader) = take reader).
  { apply filter_all_data. eapply Forall_impl; [exact Hall|]. by intros s [Hv _]. }
  rewrite for_samples_fold by (try rewrite Hdata; lia).
  rewrite Hdata, Z.add_0_l. f_equal. by apply reconcile_unknown.
Qed.

(** *** The receive loop *)

Section Loop.
Variable shutdown_requested : nat -> bool.
Variable arrivals : nat -> option DataReader.
Variable sample_count : Z.

Local Abbreviation turn := (Subscriber.turn arrivals).

Lemma turn_fields st :
  spolls (turn st) = S (spolls st)
  /\ dispatches (turn st) = S (dispatches st)
  /\ screen (turn st) = absorb arrivals (screen st) (dispatches st).
Proof.
  unfold turn, dispatch, absorb. cbn [spolled dispatches screen].
  destruct (arrivals (dispatches st)) as [reader|]; [|by repeat split].
  pose proof (for_samples_world reader (take reader) 0 (screen st)) as Hw.
  fold (process_data reader (screen st)) in Hw.
  destruct (process_data reader (screen st)) as [n w']. cbn in Hw. subst w'.
  by repeat split.
Qed.

Lemma turn_samples_read st :
  (forall k reader, arrivals k = Some reader -> data_count reader <= INT_MAX) ->
  0 <= samples_read st < UINT_MOD ->
  samples_read (turn st)
  = wrap_uint (samples_read st + arrived arrivals (dispatches st)).
Proof.
  intros Hb Hsr. unfold turn, dispatch, arrived.
  cbn [spolled dispatches screen samples_read].
  destruct (arrivals (dispatches st)) as [reader|] eqn:Ha.
  - unfold process_data. rewrite for_samples_fold; [|lia|].
    + cbn. reflexivity.
    + rewrite Z.add_0_l. apply (Hb _ _ Ha).
  - cbn. rewrite Z.add_0_r. symmetry. by apply wrap_uint_in_range.
Qed.

Lemma turns_fields (m : nat) : forall st,
  spolls (Nat.iter m turn st) = (spolls st + m)%nat
  /\ dispatches (Nat.iter m turn st) = (dispatches st + m)%nat.
Proof.
  induction m as [|m IH]; intros st; [cbn; lia|].
  change (Nat.iter (S m) turn st) with (turn (Nat.iter m turn st)).
  destruct (turn_fields (Nat.iter m turn st)) as (-> & -> & _).
  destruct (IH st) as [-> ->]. lia.
Qed.

(** Whatever the loop returns is reached by some number of turns, each
    begun with the flag clear, and with the condition false at the end. *)
Lemma receive_loop_turns (fuel : nat) : forall st st',
  receive_loop shutdown_requested arrivals sample_count fuel st = Some st' ->
  exists m,
    st' = spolled (Nat.iter m turn st)
    /\ (forall j, (j < m)%nat -> shutdown_requested (spolls st + j) = false)
    /\ (shutdown_requested (spolls st + m) = true
        \/ sample_count <= samples_read (Nat.iter m turn st)).
Proof.
  induction fuel as [|fuel IH]; intros st st' Hl; [discriminate|].
  cbn [receive_loop] in Hl.
  destruct (shutdown_requested (spolls st)) eqn:Hflag; cbn [negb andb] in Hl.
  - exists O. rewrite Nat.add_0_r. split; [by inversion Hl|]. split; [lia | by left].
  - destruct (Z.ltb_spec (samples_read st) sample_count) as [Hlt | Hge].
    + apply IH in Hl. destruct Hl as (m & -> & Hclear & Hend). exists (S m).
      fold (turn st) in *. destruct (turn_fields st) as (Hsp & _).
      rewrite Hsp in *. rewrite Nat.iter_succ_r. split; [reflexivity|]. split.
      * intros [|j] Hj; [by rewrite Nat.add_0_r|].
        rewrite <- (Hclear j) by lia. f_equal. lia.
      * replace (spolls st + S m)%nat with (S (spolls st) + m)%nat by lia. exact Hend.
    + exists O. rewrite Nat.add_0_r. split; [by inversion Hl|]. split; [lia | by right].
Qed.

(** X10.  The subscriber leaves its loop only when it sees the shutdown flag set
    or [samples_read] has reached [sample_count]; until then it has read the
    flag clear and dispatched once each time. *)
Theorem subscriber_leaves_loop_when_done (w : world) (fuel : nat) (st' : sub_locals) :
  run_subscriber_application shutdown_requested arrivals sample_count w fuel = Some st' ->
  spolls st' = S (dispatches st')
  /\ (forall k, (k < dispatches st')%nat -> shutdown_requested k = false)
  /\ (shutdown_requested (dispatches st') = true \/ sample_count <= samples_read st').
Proof.
  unfold run_subscriber_application. intros Hr.
  apply receive_loop_turns in Hr. destruct Hr as (m & -> & Hclear & Hend).
  cbn [spolled spolls dispatches samples_read] in *.
  match goal with |- context [Nat.iter m turn ?s] => destruct (turns_fields m s) as [-> ->] end.
  cbn [spolls dispatches]. repeat split; [exact Hclear | exact Hend].
Qed.

Lemma turns_accumulate (m : nat) : forall st,
  (forall k reader, arrivals k = Some reader -> data_count reader <= INT_MAX) ->
  samples_read st = 0 -> dispatches st = O ->
  samples_read (Nat.iter m turn st) = wrap_uint (total_arrived arrivals m)
  /\ screen (Nat.iter m turn st) = foldl (absorb arrivals) (screen st) (seq 0 m).
Proof.
  intros st Hb Hsr Hd. induction m as [|m [IHr IHs]].
  - cbn. by rewrite Hsr.
  - change (Nat.iter (S m) turn st) with (turn (Nat.iter m turn st)).
    cbn [total_arrived]. destruct (turn_fields (Nat.iter m turn st)) as (_ & _ & ->).
    rewrite turn_samples_read; [|exact Hb|rewrite IHr; apply wrap_uint_range].
    destruct (turns_fields m st) as [_ ->]. rewrite Hd, Nat.add_0_l, IHr, IHs.
    split.
    + unfold wrap_uint. by rewrite Zplus_mod_idemp_l.
    + by rewrite seq_S, foldl_app.
Qed.

(** X11.  What a run of the subscriber amounts to: [samples_read] is the number of
    data notifications of all the batches dispatched (modulo 2^32), and the
    screen is the result of routing the notifications of every batch, in
    the order of arrival; waits that time out add nothing. *)
Theorem subscriber_accumulates_batches (w : world) (fuel : nat) (st' : sub_locals) :
  (forall k reader, arrivals k = Some reader -> data_count reader <= INT_MAX) ->
  run_subscriber_application shutdown_requested arrivals sample_count w fuel = Some st' ->
  samples_read st' = wrap_uint (total_arrived arrivals (dispatches st'))
  /\ screen st' = foldl (absorb arrivals) w (seq 0 (dispatches st')).
Proof.
  unfold run_subscriber_application. intros Hb Hr.
  apply receive_loop_turns in Hr. destruct Hr as (m & -> & _).
  cbn [spolled spolls dispatches samples_read screen].
  match goal with |- context [Nat.iter m turn ?s] =>
    destruct (turns_fields m s) as [_ ->];
    destruct (turns_accumulate m s Hb eq_refl eq_refl) as [-> ->] end.
  cbn [dispatches screen]. by rewrite Nat.add_0_l.
Qed.

(** As long as every wait times out, nothing changes. *)
Lemma quiet_loop (t : nat) : forall fuel st,
  (forall j, (j < t)%nat -> arrivals (dispatches st + j) = None) ->
  (forall j, (j < t)%nat -> shutdown_requested (spolls st + j) = false) ->
  samples_read st < sample_count ->
  receive_loop shutdown_requested arrivals sample_count (t + fuel) st
  = receive_loop shutdown_requested arrivals sample_count fuel
      {| samples_read := samples_read st; spolls := spolls st + t;
         dispatches := dispatches st + t; screen := screen st |}.
Proof.
  induction t as [|t IH]; intros fuel st Hnone Hclear Hlt.
  - cbn [Nat.add]. rewrite !Nat.add_0_r. by destruct st.
  - cbn [Nat.add receive_loop].
    generalize (Hclear O ltac:(lia)). rewrite Nat.add_0_r. intros ->.
    assert ((samples_read st <? sample_count) = true) as -> by (by apply Z.ltb_lt).
    cbn [negb andb]. unfold dispatch. cbn [spolled dispatches samples_read spolls screen].
    generalize (Hnone O ltac:(lia)). rewrite Nat.add_0_r. intros ->.
    rewrite IH; cbn [samples_read spolls dispatches screen].
    + do 2 f_equal; lia.
    + intros j Hj. rewrite <- (Hnone (S j)) by lia. f_equal. lia.
    + intros j Hj. rewrite <- (Hclear (S j)) by lia. f_equal. lia.
    + exact Hlt.
Qed.

(** X12.  On a quiet bus the subscriber only waits: if the first [t] waits time
    out and the flag is first seen set at the read after them, the run ends
    there, with nothing read and the screen untouched. *)
Theorem quiet_bus_waits_for_shutdown (w : world) (t fuel : nat) :
  (forall k, (k < t)%nat -> arrivals k = None) ->
  (forall k, (k < t)%nat -> shutdown_requested k = false) ->
  shutdown_requested t = true ->
  0 < sample_count ->
  (t < fuel)%nat ->
  run_subscriber_application shutdown_requested arrivals sample_count w fuel
  = Some {| samples_read := 0; spolls := S t; dispatches := t; screen := w |}.
Proof.
  intros Hnone Hclear Hset Hsc Hfuel. unfold run_subscriber_application.
  replace fuel with (t + S (fuel - t - 1))%nat by lia.
  rewrite quiet_loop; cbn [samples_read spolls dispatches screen]; try assumption.
  cbn [receive_loop spolls Nat.add]. rewrite Hset. reflexivity.
Qed.

End Loop.
End Display.
#[local] Existing Instance palette8.
#[local] Existing Instance plain_printers.

#[local] Existing Instance window_24x80.

Lemma display_log_shows_the_log_witness :
  row_text 5 (20 + Z.of_nat 0) 0 (cells (term (display_log "hello" (blank true)))) = "hello"
  /\ (forall c, Z.of_nat 5 <= c ->
        cells (term (display_log "hello" (blank true))) !! (20 + Z.of_nat 0, c)
        = cells (term (blank true)) !! (20 + Z.of_nat 0, c)).
Proof.
  apply (display_log_shows_the_log "hello" (blank true) 0 "hello").
  - repeat constructor. by vm_compute.
  - by vm_compute.
  - reflexivity.
Defined.

Lemma display_log_stays_in_the_log_region_witness :
  (forall r c, r < 20 \/ 25 <= r ->
     cells (term (display_log "hello" (blank true))) !! (r, c)
     = cells (term (blank true)) !! (r, c))
  /\ refreshes (term (display_log "hello" (blank true))) = S (refreshes (term (blank true)))
  /\ current (term (display_log "hello" (blank true))) = current (term (blank true))
  /\ colors (term (display_log "hello" (blank true))) = colors (term (blank true)).
Proof.
  apply (display_log_stays_in_the_log_region "hello" (blank true)).
  - cbn. lia.
  - repeat constructor. by vm_compute.
Defined.

Lemma display_sample_shows_the_shape_witness :
  let shape := set_color "RED" default_shape in
  let w' := display_sample shape (blank true) in
  row_text (String.length (show_shape shape)) 2 10 (cells (term w')) = show_shape shape
  /\ ((String.length (color shape) <= 10)%nat ->
      row_text (String.length (color shape)) 2 0 (cells (term w')) = color shape)
  /\ refreshes (term w') = S (refreshes (term (blank true)))
  /\ current (term w')
     = (if colors (term (blank true))
        then {| pair := if 0 <? pair_number 2 then 0 else pair (current (term (blank true)));
                bold := false |}
        else current (term (blank true))).
Proof.
  apply (display_sample_shows_the_shape (set_color "RED" default_shape) (blank true) 2).
  - cbn. lia.
  - reflexivity.
  - intros c' Hc'. cbn in Hc'.
    assert (Hcases : c' = 0 \/ c' = 1) by lia.
    destruct Hcases as [-> | ->]; discriminate.
  - by vm_compute.
  - reflexivity.
  - reflexivity.
  - by vm_compute.
  - by vm_compute.
Defined.

Lemma process_data_restores_attributes_witness :
  current (term (process_data
                   {| take := [ {| sdata := set_color "YELLOW" default_shape;
                                   info := {| valid := true; instance_handle := 1;
                                              instance_state := alive;
                                              sample_state := not_read |} |} ];
                      key_value := fun _ => default_shape |}
                   (blank true)).2)
  = plain.
Proof.
  apply process_data_restores_attributes. reflexivity.
Defined.

Lemma unknown_colours_are_counted_witness :
  let pink := {| sdata := set_color "PINK" default_shape;
                 info := {| valid := true; instance_handle := 1;
                            instance_state := alive; sample_state := not_read |} |} in
  process_data {| take := [pink]; key_value := fun _ => default_shape |} (blank true)
  = (Z.of_nat (length [pink]), blank true).
Proof.
  cbn zeta.
  apply (unknown_colours_are_counted
           {| take := [ {| sdata := set_color "PINK" default_shape;
                           info := {| valid := true; instance_handle := 1;
                                      instance_state := alive;
                                      sample_state := not_read |} |} ];
              key_value := fun _ => default_shape |} (blank true)).
  - constructor; [|constructor].
    split; [reflexivity|]. intros c Hc. cbn in Hc.
    assert (Hcases : c = 0 \/ c = 1 \/ c = 2 \/ c = 3 \/ c = 4 \/ c = 5 \/ c = 6 \/ c = 7)
      by lia.
    destruct Hcases as [-> | [-> | [-> | [-> | [-> | [-> | [-> | ->]]]]]]]; discriminate.
  - vm_compute. discriminate.
Defined.

Lemma subscriber_leaves_loop_when_done_witness :
  let st' := {| samples_read := 0; spolls := 2; dispatches := 1; screen := blank true |} in
  spolls st' = S (dispatches st')
  /\ (forall k, (k < dispatches st')%nat -> Nat.leb 1 k = false)
  /\ (Nat.leb 1 (dispatches st') = true \/ 1 <= samples_read st').
Proof.
  apply (subscriber_leaves_loop_when_done (fun k => Nat.leb 1 k) (fun _ => None) 1
           (blank true) 3).
  reflexivity.
Defined.

Lemma subscriber_accumulates_batches_witness :
  let red := {| sdata := set_color "RED" default_shape;
                info := {| valid := true; instance_handle := 7;
                           instance_state := alive; sample_state := not_read |} |} in
  let arrivals := fun k : nat =>
    match k with
    | O => None
    | _ => Some {| take := [red; red]; key_value := fun _ => default_shape |}
    end in
  let st' := {| samples_read := 2; spolls := 3; dispatches := 2;
                screen := display_sample (sdata red) (display_sample (sdata red) (blank true)) |} in
  samples_read st' = wrap_uint (total_arrived arrivals (dispatches st'))
  /\ screen st' = foldl (absorb arrivals) (blank true) (seq 0 (dispatches st')).
Proof.
  cbn zeta.
  apply (subscriber_accumulates_batches (fun _ => false) _ 2 (blank true) 4).
  - intros [|k] reader [=]. subst reader. vm_compute. discriminate.
  - reflexivity.
Defined.

Lemma quiet_bus_waits_for_shutdown_witness :
  run_subscriber_application (fun k => Nat.leb 2 k) (fun _ => None) 10 (blank true) 5
  = Some {| samples_read := 0; spolls := 3; dispatches := 2; screen := blank true |}.
Proof.
  apply (quiet_bus_waits_for_shutdown (fun k => Nat.leb 2 k) (fun _ => None) 10
           (blank true) 2 5).
  - reflexivity.
  - intros [|[|k]] Hk; [reflexivity | reflexivity | lia].
  - reflexivity.
  - lia.
  - lia.
Defined.

End SubscriberMore.
